(** * job_match_agent: the skill-matching and text-normalisation tools

    A shallow embedding of the tool functions under [tools/]
    ([resume_tools], [job_tools], [match_tools], [improved_tools],
    [outreach_tools], [json_tools]) together with the Python built-ins
    they call, and the properties of the pipeline proved about them.

    Conventions.
    - A Python [str] is a Rocq [string] whose characters are the code
      points U+0000..U+00FF; [lower], [strip] and the whitespace class
      follow Python on that range.
    - A Python [float] is a binary64 [float]; conversions between decimal
      text, integers and floats are correctly rounded, through the
      reference operations of [SpecFloat].
    - A Python [set] of strings is a [gset string]; [sorted] of a set is
      the merge sort of its elements under the code-point order.
    - An exception is a value of [exn]; a call that may raise returns a
      [result].
    - [json.loads], [json.dumps] and [repr] of compound objects belong to
      the Python runtime; the tools are defined over any such functions
      (the class [Runtime]), and [Ref] gives one concrete runtime to
      evaluate them with. *)

From Stdlib Require Import ZArith Floats String Ascii List Bool Lia DecimalString.
From stdpp Require Import base gmap sets list strings sorting.

Set Warnings "-inexact-float".

Local Open Scope list_scope.
Local Open Scope string_scope.

(* ===================================================================== *)
(** * Python values, exceptions and built-ins *)
(* ===================================================================== *)

Module Py.

(** ** Exceptions and the error monad *)

Inductive exn : Type :=
| JSONDecodeError
| AttributeError
| TypeError
| ValueError
| OverflowError
| IndexError
| OSError (msg : string).

Definition result (A : Type) : Type := exn + A.

Definition ok {A} (a : A) : result A := inr a.
Definition raise {A} (e : exn) : result A := inl e.

Definition bind {A B} (m : result A) (k : A → result B) : result B :=
  match m with
  | inl e => inl e
  | inr a => k a
  end.

Notation "'let*' x ':=' m 'in' k" := (bind m (λ x, k))
  (at level 10, x name, m at level 100, k at level 200).

(** [try: m except Exception: d] *)
Definition try_except {A} (m : result A) (d : A) : A :=
  match m with
  | inl _ => d
  | inr a => a
  end.

Fixpoint mapM {A B} (f : A → result B) (l : list A) : result (list B) :=
  match l with
  | [] => ok []
  | a :: l' => bind (f a) (λ b, bind (mapM f l') (λ bs, ok (b :: bs)))
  end.

(** ** Values that travel through the tools (what [json.loads] builds) *)

#[warnings="-register-all"]
Inductive value : Type :=
| JNull
| JBool (b : bool)
| JInt (z : Z)
| JFloat (f : float)
| JStr (s : string)
| JList (l : list value)
| JDict (d : list (string * value)).

(** A Python dict with string keys, in insertion order. *)
Definition dict : Type := list (string * value).

(** [d.get(key)]: [None] when the key is absent. *)
Fixpoint dict_lookup (key : string) (d : dict) : option value :=
  match d with
  | [] => None
  | (k, v) :: d' => if String.eqb k key then Some v else dict_lookup key d'
  end.

(** [d.get(key, default)] *)
Definition dict_get (key : string) (default : value) (d : dict) : value :=
  match dict_lookup key d with
  | Some v => v
  | None => default
  end.

(** [obj.get]: only a dict has the attribute. *)
Definition as_dict (v : value) : result dict :=
  match v with
  | JDict d => ok d
  | _ => raise AttributeError
  end.

(** [obj.get(key, default)] as a method call. *)
Definition call_get (obj : value) (key : string) (default : value)
    : result value :=
  let* d := as_dict obj in ok (dict_get key default d).

(** [obj.get(key)] as a method call. *)
Definition call_get_none (obj : value) (key : string) : result value :=
  call_get obj key JNull.

(** Truth value of an object, as [if x:] and [x or y] test it. *)
Definition truthy (v : value) : bool :=
  match v with
  | JNull => false
  | JBool b => b
  | JInt z => negb (Z.eqb z 0)
  | JFloat f => negb (PrimFloat.eqb f 0%float)
  | JStr s => negb (String.eqb s "")
  | JList l => match l with [] => false | _ => true end
  | JDict d => match d with [] => false | _ => true end
  end.

(** [x or y] *)
Definition py_or (x y : value) : value := if truthy x then x else y.

(** ** Characters and strings *)

Definition code (c : ascii) : N := N_of_ascii c.

Definition in_range (lo hi n : N) : bool := (lo <=? n)%N && (n <=? hi)%N.

(** Upper-case letters below U+0100: A-Z, and U+00C0..U+00DE except the
    multiplication sign U+00D7. Each has its lower case 32 places up. *)
Definition is_upper (c : ascii) : bool :=
  in_range 65 90 (code c)
  || (in_range 192 222 (code c) && negb (code c =? 215)%N).

Definition lower_char (c : ascii) : ascii :=
  if is_upper c then ascii_of_N (code c + 32) else c.

(** [s.lower()] *)
Fixpoint lower (s : string) : string :=
  match s with
  | EmptyString => EmptyString
  | String c s' => String (lower_char c) (lower s')
  end.

(** Whitespace as [str.strip()] and [str.isspace()] see it below U+0100. *)
Definition is_space (c : ascii) : bool :=
  in_range 9 13 (code c) || in_range 28 32 (code c)
  || (code c =? 133)%N || (code c =? 160)%N.

Fixpoint lstrip (s : string) : string :=
  match s with
  | EmptyString => EmptyString
  | String c s' => if is_space c then lstrip s' else s
  end.

Fixpoint rstrip (s : string) : string :=
  match s with
  | EmptyString => EmptyString
  | String c s' =>
      match rstrip s' with
      | EmptyString => if is_space c then EmptyString else String c EmptyString
      | r => String c r
      end
  end.

(** [s.strip()] *)
Definition strip (s : string) : string := rstrip (lstrip s).

(** [s.startswith(p)] *)
Fixpoint startswith (s p : string) : bool :=
  match p, s with
  | EmptyString, _ => true
  | String _ _, EmptyString => false
  | String a p', String b s' => Ascii.eqb a b && startswith s' p'
  end.

(** [sub in s]: [sub] occurs in [s] as a contiguous substring. *)
Fixpoint str_in (sub s : string) : bool :=
  startswith s sub
  || match s with
     | EmptyString => false
     | String _ s' => str_in sub s'
     end.

(** [sep.join(l)] *)
Fixpoint join (sep : string) (l : list string) : string :=
  match l with
  | [] => ""
  | [s] => s
  | s :: l' => s ++ sep ++ join sep l'
  end.

(** [s.splitlines()]: the line boundaries below U+0100 are LF, CR, CR LF,
    VT, FF, FS, GS, RS and NEL. *)
Definition is_linebreak (c : ascii) : bool :=
  in_range 10 13 (code c) || in_range 28 30 (code c) || (code c =? 133)%N.

Fixpoint splitlines_go (cur : string) (s : string) : list string :=
  match s with
  | EmptyString => if String.eqb cur "" then [] else [cur]
  | String c s' =>
      if is_linebreak c then
        match s' with
        | String c' s'' =>
            if (code c =? 13)%N && (code c' =? 10)%N
            then cur :: splitlines_go "" s''
            else cur :: splitlines_go "" s'
        | EmptyString => [cur]
        end
      else splitlines_go (cur ++ String c "") s'
  end.

Definition splitlines (s : string) : list string := splitlines_go "" s.

(** ** Sets of strings and [sorted] *)

(** [sorted(X)] for a set [X] of strings: ascending in the code-point
    lexicographic order, which is [String.le]. *)
Definition py_sorted (X : gset string) : list string :=
  merge_sort String.le (elements X).

(** ** Integers and floats *)

(** [str(n)] for an int. *)
Definition str_of_Z (z : Z) : string := NilZero.string_of_int (Z.to_int z).

(** The binary64 nearest (ties to even) to the fraction [a / b], signed. *)
Definition nearest (neg : bool) (a b : positive) : float :=
  let '(q, e, l) := SFdiv_core_binary prec emax (Zpos a) 0 (Zpos b) 0 in
  SF2Prim (binary_round_aux prec emax neg q e l).

(** The binary64 nearest to [m * 10 ^ e], signed. From [10 ^ 310] on the
    value rounds to an infinity, and below [10 ^ -330] to a zero; the two
    shortcuts only keep huge exponents from being expanded ([m] has at
    most [Z.log2 m + 1] decimal digits). *)
Definition float_of_decimal (neg : bool) (m : N) (e : Z) : float :=
  match m with
  | N0 => if neg then (-0)%float else 0%float
  | Npos p =>
      if (310 <=? e)%Z then
        if neg then neg_infinity else infinity
      else if (e + Z.log2 (Zpos p) + 1 <=? -330)%Z then
        if neg then (-0)%float else 0%float
      else if (0 <=? e)%Z
      then SF2Prim (binary_normalize prec emax
                      (cond_Zopp neg (Zpos p * 10 ^ e)) 0 false)
      else nearest neg p (Z.to_pos (10 ^ (- e)))
  end.

Definition is_infinite (x : float) : bool :=
  match Prim2SF x with
  | S754_infinity _ => true
  | _ => false
  end.

(** [float(n)] for an int: correctly rounded, [OverflowError] when the
    int is too large. *)
Definition float_of_int (z : Z) : result float :=
  let x := SF2Prim (binary_normalize prec emax z 0 false) in
  if is_infinite x then raise OverflowError else ok x.

(** [a / b] for non-negative ints, [b] not zero. *)
Definition int_truediv (a b : nat) : float :=
  match a, b with
  | O, _ => 0%float
  | _, O => nan
  | _, _ => nearest false (Pos.of_nat a) (Pos.of_nat b)
  end.

(** *** [float(s)] for a string *)

Definition is_digit (c : ascii) : bool := in_range 48 57 (code c).
Definition digit_val (c : ascii) : N := (code c - 48)%N.

(** Whitespace that [float] strips from the ends of its argument: the
    ASCII blanks and the two non-ASCII spaces below U+0100. *)
Definition is_space_float (c : ascii) : bool :=
  in_range 9 13 (code c) || (code c =? 32)%N
  || (code c =? 133)%N || (code c =? 160)%N.

Fixpoint lstrip_float (s : string) : string :=
  match s with
  | EmptyString => EmptyString
  | String c s' => if is_space_float c then lstrip_float s' else s
  end.

Fixpoint rstrip_float (s : string) : string :=
  match s with
  | EmptyString => EmptyString
  | String c s' =>
      match rstrip_float s' with
      | EmptyString =>
          if is_space_float c then EmptyString else String c EmptyString
      | r => String c r
      end
  end.

(** An underscore is accepted only between two digits, and dropped. *)
Fixpoint drop_underscores (prev : ascii) (s : string) : option string :=
  match s with
  | EmptyString => if Ascii.eqb prev "_" then None else Some EmptyString
  | String c s' =>
      if Ascii.eqb c "_" then
        if is_digit prev then drop_underscores c s' else None
      else if Ascii.eqb prev "_" && negb (is_digit c) then None
      else option_map (String c) (drop_underscores c s')
  end.

Fixpoint take_digits (acc : N) (n : nat) (s : string) : N * nat * string :=
  match s with
  | String c s' =>
      if is_digit c then take_digits (10 * acc + digit_val c) (S n) s'
      else (acc, n, s)
  | EmptyString => (acc, n, s)
  end.

Definition take_sign (s : string) : bool * string :=
  match s with
  | String "+" s' => (false, s')
  | String "-" s' => (true, s')
  | _ => (false, s)
  end.

(** digits [. digits] [(e|E) [sign] digits], with at least one digit in
    the mantissa and nothing left over. *)
Definition parse_decimal (neg : bool) (s : string) : option float :=
  let '(m1, n1, r1) := take_digits 0 0 s in
  let '(m2, n2, r2) :=
    match r1 with
    | String "." r => take_digits m1 0 r
    | _ => (m1, O, r1)
    end in
  if Nat.eqb (n1 + n2) 0 then None
  else
    match r2 with
    | EmptyString => Some (float_of_decimal neg m2 (- Z.of_nat n2))
    | String c r3 =>
        if Ascii.eqb c "e" || Ascii.eqb c "E" then
          let '(eneg, r4) := take_sign r3 in
          let '(ev, en, r5) := take_digits 0 0 r4 in
          if Nat.eqb en 0 || negb (String.eqb r5 "") then None
          else Some (float_of_decimal neg m2
                       (cond_Zopp eneg (Z.of_N ev) - Z.of_nat n2))
        else None
    end.

Definition float_of_str (s : string) : option float :=
  match drop_underscores "000" (rstrip_float (lstrip_float s)) with
  | None => None
  | Some t =>
      let '(neg, body) := take_sign t in
      let name := lower body in
      if String.eqb name "inf" || String.eqb name "infinity"
      then Some (if neg then neg_infinity else infinity)
      else if String.eqb name "nan" then Some nan
      else parse_decimal neg body
  end.

(** [float(x)] *)
Definition py_float (v : value) : result float :=
  match v with
  | JFloat f => ok f
  | JInt z => float_of_int z
  | JBool b => ok (if b then 1%float else 0%float)
  | JStr s =>
      match float_of_str s with
      | Some f => ok f
      | None => raise ValueError
      end
  | JNull | JList _ | JDict _ => raise TypeError
  end.

(** [min(a, b)]: the later argument wins only when strictly smaller. *)
Definition py_min (a b : float) : float := if PrimFloat.ltb b a then b else a.

(** [max(a, b)]: the later argument wins only when strictly greater. *)
Definition py_max (a b : float) : float := if PrimFloat.ltb a b then b else a.

(** The integer nearest to [a / b], ties to even ([0 < b]). *)
Definition round_half_even (a b : Z) : Z :=
  let q := (a / b)%Z in
  match (2 * (a mod b) ?= b)%Z with
  | Lt => q
  | Gt => (q + 1)%Z
  | Eq => if Z.even q then q else (q + 1)%Z
  end.

(** [|x| * 10 ^ n] rounded to an integer, for finite non-zero [x] given
    as mantissa and binary exponent. *)
Definition scaled_round (m : positive) (e : Z) (n : nat) : Z :=
  if (0 <=? e)%Z
  then (Zpos m * 2 ^ e * 10 ^ Z.of_nat n)%Z
  else round_half_even (Zpos m * 10 ^ Z.of_nat n) (2 ^ (- e)).

(** [round(x, n)] for [n >= 0]: the decimal with [n] places nearest to the
    exact value of [x], read back as a float. *)
Definition py_round (x : float) (n : nat) : float :=
  match Prim2SF x with
  | S754_finite neg m e =>
      if (323 <? n)%nat then x
      else float_of_decimal neg (Z.to_N (scaled_round m e n)) (- Z.of_nat n)
  | _ => x
  end.

(** [format(x, ".2f")] for a float. *)
Definition format_2f (x : float) : string :=
  match Prim2SF x with
  | S754_nan => "nan"
  | S754_infinity neg => if neg then "-inf" else "inf"
  | S754_zero neg => if neg then "-0.00" else "0.00"
  | S754_finite neg m e =>
      let r := scaled_round m e 2 in
      let frac := (r mod 100)%Z in
      (if neg then "-" else "")
        ++ str_of_Z (r / 100) ++ "."
        ++ (if (frac <? 10)%Z then "0" else "") ++ str_of_Z frac
  end.

(** ** The runtime the tools run on *)

(** [json.loads], [json.dumps(_, indent=...)] and [repr] of floats, lists
    and dicts are the interpreter's; the tools are defined over any of
    them. *)
Class Runtime : Type := {
  json_loads : string → result value;
  json_dumps : option nat → value → string;
  py_repr : value → string;
}.

(** [str(x)], also what an f-string field [{x}] prints. *)
Definition py_str `{Runtime} (v : value) : string :=
  match v with
  | JStr s => s
  | JNull => "None"
  | JBool b => if b then "True" else "False"
  | JInt z => str_of_Z z
  | JFloat _ | JList _ | JDict _ => py_repr v
  end.

(** [for s in x]: the items of a list, the characters of a string, the
    keys of a dict; nothing else the tools meet is iterable. *)
Definition py_iter (v : value) : result (list value) :=
  match v with
  | JList l => ok l
  | JStr s => ok (map (λ c, JStr (String c EmptyString)) (list_ascii_of_string s))
  | JDict d => ok (map (λ kv, JStr (fst kv)) d)
  | JNull | JBool _ | JInt _ | JFloat _ => raise TypeError
  end.

(** [s.lower()] as a method call: only a string has the attribute. *)
Definition call_lower (v : value) : result string :=
  match v with
  | JStr s => ok (lower s)
  | _ => raise AttributeError
  end.

(** [x[:n]]: lists and strings can be sliced; a number, a bool or [None]
    raises [TypeError], and so does a dict (before Python 3.12; from 3.12
    on it is a [KeyError], which the model does not tell apart). *)
Definition slice_to (n : nat) (v : value) : result value :=
  match v with
  | JList l => ok (JList (firstn n l))
  | JStr s => ok (JStr (String.substring 0 n s))
  | _ => raise TypeError
  end.

Definition as_str (v : value) : result string :=
  match v with
  | JStr s => ok s
  | _ => raise TypeError
  end.

(** [sep.join(x)]: [x] must be iterable and yield strings only. *)
Definition py_join (sep : string) (v : value) : result string :=
  bind (py_iter v) (λ items,
  bind (mapM as_str items) (λ strs,
  ok (join sep strs))).

(** [len(x)] for the objects that have a length. *)
Definition py_len (v : value) : result nat :=
  match v with
  | JList l => ok (List.length l)
  | JStr s => ok (String.length s)
  | JDict d => ok (List.length d)
  | _ => raise TypeError
  end.

(** [x[i]] for a list or a string. *)
Definition py_index (i : nat) (v : value) : result value :=
  match v with
  | JList l =>
      match nth_error l i with
      | Some x => ok x
      | None => raise IndexError
      end
  | JStr s =>
      match String.get i s with
      | Some c => ok (JStr (String c EmptyString))
      | None => raise IndexError
      end
  | _ => raise TypeError
  end.

(** [format(x, ".2f")], as the f-string field [{x:.2f}] calls it. *)
Definition py_format_2f (v : value) : result string :=
  match v with
  | JFloat f => ok (format_2f f)
  | JInt z => bind (float_of_int z) (λ f, ok (format_2f f))
  | JBool b => ok (if b then "1.00" else "0.00")
  | JStr _ => raise ValueError
  | JNull | JList _ | JDict _ => raise TypeError
  end.

(** [x != "text"] *)
Definition differs_from_str (v : value) (text : string) : bool :=
  match v with
  | JStr s => negb (String.eqb s text)
  | _ => true
  end.

(** ** The two regular expressions of [job_tools]

    Both have the shape [word \s* ... [:\-] \s* (.+)] under
    [re.IGNORECASE]: single characters, greedy stars over a character
    class, and one capturing group at the end. [re.search] takes the
    leftmost start at which the backtracking match succeeds. *)

Inductive re_item : Type :=
| One (p : ascii → bool)
| Star (p : ascii → bool).

(** Greedy star with backtracking: longest run first. *)
Fixpoint re_star {A} (p : ascii → bool) (s : string)
    (k : string → option A) : option A :=
  match s with
  | String c s' =>
      if p c then
        match re_star p s' k with
        | Some r => Some r
        | None => k s
        end
      else k s
  | EmptyString => k s
  end.

Fixpoint re_match {A} (items : list re_item) (k : string → option A)
    (s : string) : option A :=
  match items with
  | [] => k s
  | One p :: items' =>
      match s with
      | String c s' => if p c then re_match items' k s' else None
      | EmptyString => None
      end
  | Star p :: items' => re_star p s (re_match items' k)
  end.

(** The group [(.+)]: the longest non-empty run without a line feed. *)
Fixpoint dot_run (s : string) : string :=
  match s with
  | String c s' => if (code c =? 10)%N then "" else String c (dot_run s')
  | EmptyString => ""
  end.

Definition group_dot_plus (s : string) : option string :=
  match dot_run s with
  | EmptyString => None
  | g => Some g
  end.

(** [re.search(items + "(.+)", s).group(1)], or [None]. *)
Fixpoint re_search (items : list re_item) (s : string) : option string :=
  match re_match items group_dot_plus s with
  | Some g => Some g
  | None =>
      match s with
      | String _ s' => re_search items s'
      | EmptyString => None
      end
  end.

(** A literal word under [re.IGNORECASE]. *)
Definition re_word (w : string) : list re_item :=
  map (λ a, One (λ c, Ascii.eqb (lower_char c) (lower_char a)))
      (list_ascii_of_string w).

Definition re_colon_or_dash : re_item :=
  One (λ c, Ascii.eqb c ":" || Ascii.eqb c "-").

Definition nl : string := String "010" EmptyString.

(** ** The world [log_run] writes to *)

(** The log file either accepts an append or refuses it with an
    [OSError] whose text is [err]. *)
Inductive file : Type :=
| Appendable (content : string)
| Unwritable (err : string).

Record world : Type := {
  utcnow_iso : string;   (* datetime.utcnow().isoformat() *)
  log_file : file;       (* runs_log.jsonl *)
}.

(** [with open(path, "a") as f: f.write(text)] *)
Definition append_to (f : file) (text : string) : result file :=
  match f with
  | Appendable content => ok (Appendable (content ++ text))
  | Unwritable err => raise (OSError err)
  end.

(** [str(e)] for a caught exception. *)
Definition exn_str (e : exn) : string :=
  match e with
  | OSError msg => msg
  | JSONDecodeError => "JSONDecodeError"
  | AttributeError => "AttributeError"
  | TypeError => "TypeError"
  | ValueError => "ValueError"
  | OverflowError => "OverflowError"
  | IndexError => "IndexError"
  end.

End Py.

(* ===================================================================== *)
(** * A reference runtime: [repr], [json.dumps] and [json.loads] *)
(* ===================================================================== *)

Module Ref.
Import Py.

Definition dquote : ascii := "034".
Definition squote : ascii := "039".
Definition backslash : ascii := "092".

Definition chr (c : ascii) : string := String c EmptyString.

Fixpoint repeat_str (n : nat) (s : string) : string :=
  match n with
  | O => ""
  | S n' => s ++ repeat_str n' s
  end.

Definition hex_digit (n : N) : ascii :=
  if (n <? 10)%N then ascii_of_N (48 + n) else ascii_of_N (87 + n).

Definition hex2 (c : ascii) : string :=
  String (hex_digit (code c / 16)) (chr (hex_digit (code c mod 16))).

(** ** [repr] of a float: the shortest decimal that reads back *)

(** [a / b >= 10 ^ k] *)
Definition ge_pow10 (a b k : Z) : bool :=
  if (0 <=? k)%Z then (b * 10 ^ k <=? a)%Z else (b <=? a * 10 ^ (- k))%Z.

Fixpoint adjust_exp10 (fuel : nat) (a b k : Z) : Z :=
  match fuel with
  | O => k
  | S fuel' =>
      if negb (ge_pow10 a b k) then adjust_exp10 fuel' a b (k - 1)
      else if ge_pow10 a b (k + 1) then adjust_exp10 fuel' a b (k + 1)
      else k
  end.

(** The [k] with [10 ^ k <= a / b < 10 ^ (k + 1)]. *)
Definition exp10 (a b : Z) : Z :=
  adjust_exp10 8 a b ((Z.log2 a - Z.log2 b) * 30103 / 100000).

Definition reads_back (x : float) (c scale : Z) : bool :=
  PrimFloat.eqb (float_of_decimal false (Z.to_N c) scale) x.

(** The best decimal with [p] digits, if one of the two around [a / b]
    reads back as [x]. *)
Definition candidate (x : float) (a b k : Z) (p : nat) : option (Z * Z) :=
  let scale := (k - Z.of_nat p + 1)%Z in
  let '(num, den) :=
    if (0 <=? scale)%Z then (a, b * 10 ^ scale)%Z
    else (a * 10 ^ (- scale), b)%Z in
  let lo := (num / den)%Z in
  let rem := (num mod den)%Z in
  let lo_ok := reads_back x lo scale in
  let hi_ok := negb (rem =? 0)%Z && reads_back x (lo + 1) scale in
  let pick_hi :=
    match (2 * rem ?= den)%Z with
    | Lt => false
    | Gt => true
    | Eq => Z.odd lo
    end in
  match lo_ok, hi_ok with
  | true, true => Some (if pick_hi then (lo + 1)%Z else lo, scale)
  | true, false => Some (lo, scale)
  | false, true => Some ((lo + 1)%Z, scale)
  | false, false => None
  end.

Fixpoint shortest (fuel : nat) (x : float) (a b k : Z) (p : nat)
    : Z * Z :=
  match fuel with
  | O => (0%Z, 0%Z)
  | S fuel' =>
      match candidate x a b k p with
      | Some r => r
      | None => shortest fuel' x a b k (S p)
      end
  end.

Fixpoint drop_zeros (fuel : nat) (c scale : Z) : Z * Z :=
  match fuel with
  | O => (c, scale)
  | S fuel' =>
      if (c mod 10 =? 0)%Z && negb (c =? 0)%Z
      then drop_zeros fuel' (c / 10)%Z (scale + 1)%Z
      else (c, scale)
  end.

Definition pad2 (z : Z) : string :=
  (if (z <? 10)%Z then "0" else "") ++ str_of_Z z.

Definition lay_out (ds : string) (decpt : Z) : string :=
  let n := Z.of_nat (String.length ds) in
  if (-4 <? decpt)%Z && (decpt <=? 16)%Z then
    if (decpt <=? 0)%Z then
      "0." ++ repeat_str (Z.to_nat (- decpt)) "0" ++ ds
    else if (n <=? decpt)%Z then
      ds ++ repeat_str (Z.to_nat (decpt - n)) "0" ++ ".0"
    else
      String.substring 0 (Z.to_nat decpt) ds ++ "."
        ++ String.substring (Z.to_nat decpt) (String.length ds) ds
  else
    let e := (decpt - 1)%Z in
    String.substring 0 1 ds
      ++ (if (1 <? n)%Z
          then "." ++ String.substring 1 (String.length ds) ds else "")
      ++ "e" ++ (if (e <? 0)%Z then "-" else "+") ++ pad2 (Z.abs e).

Definition repr_float (x : float) : string :=
  match Prim2SF x with
  | S754_nan => "nan"
  | S754_infinity neg => if neg then "-inf" else "inf"
  | S754_zero neg => if neg then "-0.0" else "0.0"
  | S754_finite neg m e =>
      let '(a, b) :=
        if (0 <=? e)%Z then (Zpos m * 2 ^ e, 1)%Z
        else (Zpos m, 2 ^ (- e))%Z in
      let '(c0, scale0) := shortest 17 (abs x) a b (exp10 a b) 1 in
      let '(c, scale) := drop_zeros 20 c0 scale0 in
      let ds := str_of_Z c in
      (if neg then "-" else "")
        ++ lay_out ds (scale + Z.of_nat (String.length ds))
  end.

(** ** [repr] of a string *)

Fixpoint has_char (c : ascii) (s : string) : bool :=
  match s with
  | EmptyString => false
  | String d s' => Ascii.eqb c d || has_char c s'
  end.

Definition printable (c : ascii) : bool :=
  in_range 32 126 (code c)
  || (in_range 161 255 (code c) && negb (code c =? 173)%N).

Definition repr_char (quote c : ascii) : string :=
  if Ascii.eqb c backslash then String backslash (chr backslash)
  else if Ascii.eqb c quote then String backslash (chr quote)
  else if (code c =? 9)%N then String backslash "t"
  else if (code c =? 10)%N then String backslash "n"
  else if (code c =? 13)%N then String backslash "r"
  else if printable c then chr c
  else String backslash ("x" ++ hex2 c).

Fixpoint concat_map (f : ascii → string) (s : string) : string :=
  match s with
  | EmptyString => ""
  | String c s' => f c ++ concat_map f s'
  end.

Definition repr_str (s : string) : string :=
  let quote :=
    if has_char squote s && negb (has_char dquote s) then dquote
    else squote in
  chr quote ++ concat_map (repr_char quote) s ++ chr quote.

(** ** [repr] of any value *)

Fixpoint repr (v : value) : string :=
  match v with
  | JNull => "None"
  | JBool b => if b then "True" else "False"
  | JInt z => str_of_Z z
  | JFloat f => repr_float f
  | JStr s => repr_str s
  | JList l => "[" ++ join ", " (map repr l) ++ "]"
  | JDict d =>
      "{" ++ join ", "
               (map (λ kv, (repr_str (fst kv) ++ ": " ++ repr (snd kv))%string) d)
          ++ "}"
  end.

(** ** [json.dumps] *)

Definition escape_char (c : ascii) : string :=
  if Ascii.eqb c dquote then String backslash (chr dquote)
  else if Ascii.eqb c backslash then String backslash (chr backslash)
  else if (code c =? 10)%N then String backslash "n"
  else if (code c =? 13)%N then String backslash "r"
  else if (code c =? 9)%N then String backslash "t"
  else if (code c =? 8)%N then String backslash "b"
  else if (code c =? 12)%N then String backslash "f"
  else if in_range 32 126 (code c) then chr c
  else String backslash ("u00" ++ hex2 c).

Definition dumps_str (s : string) : string :=
  chr dquote ++ concat_map escape_char s ++ chr dquote.

Definition dumps_float (x : float) : string :=
  match Prim2SF x with
  | S754_nan => "NaN"
  | S754_infinity neg => if neg then "-Infinity" else "Infinity"
  | _ => repr_float x
  end.

Definition newline : string := chr "010".

(** What opens, separates and closes the items of a container at a
    nesting [level]. *)
Definition layout (indent : option nat) (level : nat)
    : string * string * string :=
  match indent with
  | None => ("", ", ", "")
  | Some n =>
      ((newline ++ repeat_str (n * S level) " ")%string,
       ("," ++ newline ++ repeat_str (n * S level) " ")%string,
       (newline ++ repeat_str (n * level) " ")%string)
  end.

Fixpoint dumps_at (indent : option nat) (level : nat) (v : value) : string :=
  match v with
  | JNull => "null"
  | JBool b => if b then "true" else "false"
  | JInt z => str_of_Z z
  | JFloat f => dumps_float f
  | JStr s => dumps_str s
  | JList l =>
      match l with
      | [] => "[]"
      | _ =>
          let '(first, sep, last) := layout indent level in
          "[" ++ first ++ join sep (map (dumps_at indent (S level)) l)
              ++ last ++ "]"
      end
  | JDict d =>
      match d with
      | [] => "{}"
      | _ =>
          let '(first, sep, last) := layout indent level in
          "{" ++ first
              ++ join sep
                   (map (λ kv, (dumps_str (fst kv) ++ ": "
                                  ++ dumps_at indent (S level) (snd kv))%string)
                        d)
              ++ last ++ "}"
      end
  end.

Definition dumps (indent : option nat) (v : value) : string :=
  dumps_at indent 0 v.

(** ** [json.loads] *)

Definition is_json_space (c : ascii) : bool :=
  (code c =? 32)%N || (code c =? 9)%N || (code c =? 10)%N || (code c =? 13)%N.

Fixpoint skip_ws (s : string) : string :=
  match s with
  | String c s' => if is_json_space c then skip_ws s' else s
  | EmptyString => s
  end.

Definition hex_val (c : ascii) : option N :=
  if is_digit c then Some (code c - 48)%N
  else if in_range 97 102 (code c) then Some (code c - 87)%N
  else if in_range 65 70 (code c) then Some (code c - 55)%N
  else None.

(** The code point of a [\uXXXX] escape; only those below U+0100 are
    characters of the model. *)
Definition escape_u (h1 h2 h3 h4 : ascii) : option ascii :=
  match hex_val h1, hex_val h2, hex_val h3, hex_val h4 with
  | Some a, Some b, Some c, Some d =>
      if (a =? 0)%N && (b =? 0)%N then Some (ascii_of_N (16 * c + d))
      else None
  | _, _, _, _ => None
  end.

Definition escape_simple (c : ascii) : option ascii :=
  if Ascii.eqb c dquote then Some dquote
  else if Ascii.eqb c backslash then Some backslash
  else if Ascii.eqb c "/" then Some "/"%char
  else if Ascii.eqb c "b" then Some "008"%char
  else if Ascii.eqb c "f" then Some "012"%char
  else if Ascii.eqb c "n" then Some "010"%char
  else if Ascii.eqb c "r" then Some "013"%char
  else if Ascii.eqb c "t" then Some "009"%char
  else None.

(** The rest of a string literal after its opening quote: the text and
    what follows the closing quote. Control characters are refused. *)
Fixpoint scan_string (s : string) : option (string * string) :=
  match s with
  | EmptyString => None
  | String c s' =>
      if Ascii.eqb c dquote then Some ("", s')
      else if (code c <? 32)%N then None
      else if Ascii.eqb c backslash then
        match s' with
        | String "u" (String h1 (String h2 (String h3 (String h4 r)))) =>
            match escape_u h1 h2 h3 h4, scan_string r with
            | Some d, Some (t, rest) => Some (String d t, rest)
            | _, _ => None
            end
        | String e r =>
            match escape_simple e, scan_string r with
            | Some d, Some (t, rest) => Some (String d t, rest)
            | _, _ => None
            end
        | EmptyString => None
        end
      else
        match scan_string s' with
        | Some (t, rest) => Some (String c t, rest)
        | None => None
        end
  end.

Fixpoint span_digits (s : string) : string * string :=
  match s with
  | String c s' =>
      if is_digit c then let '(d, r) := span_digits s' in (String c d, r)
      else ("", s)
  | EmptyString => ("", s)
  end.

(** A number: an optional minus, then 0 or a digit string not starting
    with 0, then an optional fraction (a dot and digits) and an optional
    exponent (e or E, an optional sign, digits). Without fraction and
    exponent it is an int, else a float. *)
Definition scan_number (s : string) : option (value * string) :=
  let '(neg, s1) :=
    match s with
    | String "-" r => (true, r)
    | _ => (false, s)
    end in
  let '(int_part, s2) :=
    match s1 with
    | String "0" r => ("0", r)
    | _ => span_digits s1
    end in
  if String.eqb int_part "" then None
  else
    let '(frac, s3) :=
      match s2 with
      | String "." r =>
          let '(d, r') := span_digits r in
          if String.eqb d "" then ("", s2) else (("." ++ d)%string, r')
      | _ => ("", s2)
      end in
    let '(exp, s4) :=
      match s3 with
      | String c r =>
          if Ascii.eqb c "e" || Ascii.eqb c "E" then
            let '(sign, r1) :=
              match r with
              | String "+" r' => ("+", r')
              | String "-" r' => ("-", r')
              | _ => ("", r)
              end in
            let '(d, r2) := span_digits r1 in
            if String.eqb d "" then ("", s3)
            else ((chr c ++ sign ++ d)%string, r2)
          else ("", s3)
      | EmptyString => ("", s3)
      end in
    let text := ((if neg then "-" else "") ++ int_part ++ frac ++ exp)%string in
    if String.eqb frac "" && String.eqb exp "" then
      let '(m, _, _) := take_digits 0 0 int_part in
      Some (JInt (cond_Zopp neg (Z.of_N m)), s4)
    else
      match float_of_str text with
      | Some f => Some (JFloat f, s4)
      | None => None
      end.

Definition scan_word (s : string) : option (value * string) :=
  let after (w : string) := String.substring (String.length w)
                              (String.length s) s in
  if startswith s "null" then Some (JNull, after "null")
  else if startswith s "true" then Some (JBool true, after "true")
  else if startswith s "false" then Some (JBool false, after "false")
  else match scan_number s with
       | Some r => Some r
       | None =>
           if startswith s "NaN" then Some (JFloat nan, after "NaN")
           else if startswith s "Infinity"
           then Some (JFloat infinity, after "Infinity")
           else if startswith s "-Infinity"
           then Some (JFloat neg_infinity, after "-Infinity")
           else None
       end.

(** [d[k] = v] on an insertion-ordered dict. *)
Fixpoint dict_set (k : string) (v : value) (d : dict) : dict :=
  match d with
  | [] => [(k, v)]
  | (k', v') :: d' =>
      if String.eqb k' k then (k', v) :: d' else (k', v') :: dict_set k v d'
  end.

Definition dict_of_pairs (pairs : list (string * value)) : dict :=
  fold_left (λ d kv, dict_set (fst kv) (snd kv) d) pairs [].

Fixpoint scan_value (fuel : nat) (s : string) : option (value * string) :=
  match fuel with
  | O => None
  | S fuel' =>
      match s with
      | EmptyString => None
      | String c s' =>
          if Ascii.eqb c dquote then
            match scan_string s' with
            | Some (t, r) => Some (JStr t, r)
            | None => None
            end
          else if Ascii.eqb c "[" then
            match skip_ws s' with
            | String "]" r => Some (JList [], r)
            | s1 => scan_items fuel' s1 []
            end
          else if Ascii.eqb c "{" then
            match skip_ws s' with
            | String "}" r => Some (JDict [], r)
            | s1 => scan_members fuel' s1 []
            end
          else scan_word s
      end
  end
with scan_items (fuel : nat) (s : string) (acc : list value)
    : option (value * string) :=
  match fuel with
  | O => None
  | S fuel' =>
      match scan_value fuel' s with
      | None => None
      | Some (v, r) =>
          match skip_ws r with
          | String "]" r' => Some (JList (rev (v :: acc)), r')
          | String "," r' => scan_items fuel' (skip_ws r') (v :: acc)
          | _ => None
          end
      end
  end
with scan_members (fuel : nat) (s : string) (acc : list (string * value))
    : option (value * string) :=
  match fuel with
  | O => None
  | S fuel' =>
      match s with
      | String c s' =>
          if Ascii.eqb c dquote then
            match scan_string s' with
            | None => None
            | Some (k, r) =>
                match skip_ws r with
                | String ":" r1 =>
                    match scan_value fuel' (skip_ws r1) with
                    | None => None
                    | Some (v, r2) =>
                        match skip_ws r2 with
                        | String "}" r3 =>
                            Some (JDict (dict_of_pairs (rev ((k, v) :: acc))),
                                  r3)
                        | String "," r3 =>
                            scan_members fuel' (skip_ws r3) ((k, v) :: acc)
                        | _ => None
                        end
                    end
                | _ => None
                end
            end
          else None
      | EmptyString => None
      end
  end.

(** [json.loads(s)]: one value between optional blanks, nothing after.
    It agrees with Python on every text whose strings stay below U+0100;
    an escape for a higher code point, which Python accepts, is refused
    here because the model has no character for it. *)
Definition loads (s : string) : result value :=
  match scan_value (2 * String.length s + 4) (skip_ws s) with
  | Some (v, r) =>
      match skip_ws r with
      | EmptyString => ok v
      | _ => raise JSONDecodeError
      end
  | None => raise JSONDecodeError
  end.

#[export] Instance runtime : Runtime := {|
  json_loads := loads;
  json_dumps := dumps;
  py_repr := repr;
|}.

End Ref.

(* ===================================================================== *)
(** * tools/resume_tools.py *)
(* ===================================================================== *)

Module resume_tools.
Import Py.
Section Tools.
Context `{Runtime}.

Definition COMMON_SKILLS : list string :=
  [ "java"; "python"; "c++"; "c#"; "javascript"; "typescript";
    "react"; "angular"; "spring"; "spring boot"; "django"; "flask";
    "aws"; "azure"; "gcp"; "kubernetes"; "docker"; "sql"; "mongodb";
    "rest"; "microservices"; "graphql"; "kafka"; "spark" ].

(** The loop [for line in lines: line = line.strip(); if line: return
    line], falling through to [default]. *)
Fixpoint first_nonblank (lines : list string) (default : string) : string :=
  match lines with
  | [] => default
  | line :: lines' =>
      let line := strip line in
      if negb (String.eqb line "") then line
      else first_nonblank lines' default
  end.

Definition _extract_name (resume_text : string) : string :=
  first_nonblank (splitlines resume_text) "Unknown Candidate".

(** [for skill in vocabulary: if skill in text: found.append(skill)] *)
Definition found_in (vocabulary : list string) (text : string)
    : list string :=
  List.filter (λ skill, str_in skill text) vocabulary.

(** One turn of the loop that removes duplicates, on [(seen, result)]. *)
Definition dedup_step (st : gset string * list string) (s : string)
    : gset string * list string :=
  if decide (s ∈ st.1) then st
  else ({[ s ]} ∪ st.1, (st.2 ++ [s])%list).

Definition dedup (found : list string) : list string :=
  (fold_left dedup_step found (∅, [])).2.

Definition _extract_skills (resume_text : string) : list string :=
  let resume_lower := lower resume_text in
  let found := found_in COMMON_SKILLS resume_lower in
  dedup found.

(** The [profile] dict of [parse_resume]. *)
Definition resume_profile (resume_text : string) : dict :=
  let name := _extract_name resume_text in
  let skills := _extract_skills resume_text in
  [ ("name", JStr name);
    ("skills", JList (map JStr skills));
    ("raw_text", JStr resume_text) ].

Definition parse_resume (resume_text : string) : string :=
  json_dumps (Some 2) (JDict (resume_profile resume_text)).

End Tools.
End resume_tools.

(* ===================================================================== *)
(** * tools/job_tools.py *)
(* ===================================================================== *)

Module job_tools.
Import Py.
Section Tools.
Context `{Runtime}.

Definition COMMON_SKILLS : list string :=
  [ "java"; "python"; "c++"; "c#"; "javascript"; "typescript";
    "react"; "angular"; "spring"; "spring boot"; "django"; "flask";
    "aws"; "azure"; "gcp"; "kubernetes"; "docker"; "sql"; "mongodb";
    "rest"; "microservices"; "graphql"; "kafka"; "spark" ].

(** The pattern of [_extract_role_title], up to its group. *)
Definition role_title_re : list re_item :=
  (re_word "job" ++ [Star is_space] ++ re_word "title"
     ++ [Star is_space; re_colon_or_dash; Star is_space])%list.

(** The pattern of [_extract_location], up to its group. *)
Definition location_re : list re_item :=
  (re_word "location"
     ++ [Star is_space; re_colon_or_dash; Star is_space])%list.

Definition _extract_role_title (job_text : string) : string :=
  match re_search role_title_re job_text with
  | Some g => strip g
  | None =>
      resume_tools.first_nonblank (splitlines job_text) "Unknown Role"
  end.

Definition _extract_location (job_text : string) : string :=
  match re_search location_re job_text with
  | Some g => strip g
  | None => "Not specified"
  end.

Definition _extract_required_skills (job_text : string) : list string :=
  let job_lower := lower job_text in
  let found := resume_tools.found_in COMMON_SKILLS job_lower in
  resume_tools.dedup found.

(** The [profile] dict of [parse_job_description]. *)
Definition job_profile (job_text : string) : dict :=
  let role_title := _extract_role_title job_text in
  let location := _extract_location job_text in
  let required_skills := _extract_required_skills job_text in
  [ ("role_title", JStr role_title);
    ("location", JStr location);
    ("required_skills", JList (map JStr required_skills));
    ("raw_text", JStr job_text) ].

Definition parse_job_description (job_text : string) : string :=
  json_dumps (Some 2) (JDict (job_profile job_text)).

End Tools.
End job_tools.

(* ===================================================================== *)
(** * tools/match_tools.py *)
(* ===================================================================== *)

Module match_tools.
Import Py.
Section Tools.
Context `{Runtime}.

Definition _SKILL_VOCAB : list string :=
  [ "java"; "python"; "javascript"; "typescript"; "c"; "c++"; "sql";
    "html"; "css"; "react"; "angular"; "vue"; "spring"; "spring boot";
    "django"; "flask"; "fastapi"; "node.js"; "nodejs"; "express";
    "mongodb"; "postgresql"; "mysql"; "docker"; "kubernetes"; "aws";
    "gcp"; "azure"; "rest"; "restful"; "graphql" ].

Definition _extract_skills_from_text (text : string) : list string :=
  let t := lower text in
  let found : gset string :=
    list_to_set (List.filter (λ skill, str_in skill t) _SKILL_VOCAB) in
  py_sorted found.

Definition _ensure_resume_profile (value : string) : dict :=
  match json_loads value with
  | inr (JDict obj) => obj
  | _ =>
      [ ("raw_text", JStr value);
        ("skills", JList (map JStr (_extract_skills_from_text value))) ]
  end.

Definition _ensure_job_profile (value : string) : dict :=
  match json_loads value with
  | inr (JDict obj) => obj
  | _ =>
      [ ("raw_text", JStr value);
        ("required_skills",
         JList (map JStr (_extract_skills_from_text value))) ]
  end.

(** [[s.lower() for s in field]] *)
Definition lowered (field : value) : result (list string) :=
  let* items := py_iter field in mapM call_lower items.

(** [x if x else 'none'] inside the explanation. *)
Definition list_or_none (l : list string) : string :=
  match l with
  | [] => "none"
  | _ => py_str (JList (map JStr l))
  end.

(** The [result] dict of [compute_match]. *)
Definition match_result (resume_profile_json job_profile_json : string)
    : result dict :=
  let resume_profile := _ensure_resume_profile resume_profile_json in
  let job_profile := _ensure_job_profile job_profile_json in
  let* resume_skills := lowered (dict_get "skills" (JList []) resume_profile) in
  let* job_skills :=
    lowered (dict_get "required_skills" (JList []) job_profile) in
  let resume_set : gset string := list_to_set resume_skills in
  let job_set : gset string := list_to_set job_skills in
  let overlap := py_sorted (resume_set ∩ job_set) in
  let missing := py_sorted (job_set ∖ resume_set) in
  let score :=
    if decide (job_set = ∅) then 0%float
    else int_truediv (List.length overlap) (size job_set) in
  let explanation :=
    "Matched " ++ str_of_Z (Z.of_nat (List.length overlap))
      ++ " out of " ++ str_of_Z (Z.of_nat (size job_set))
      ++ " required skills. "
      ++ "Overlap: " ++ list_or_none overlap ++ ". "
      ++ "Missing: " ++ list_or_none missing ++ "." in
  ok [ ("score", JFloat (py_round score 3));
       ("overlapping_skills", JList (map JStr overlap));
       ("missing_skills", JList (map JStr missing));
       ("explanation", JStr explanation) ].

Definition compute_match (resume_profile_json job_profile_json : string)
    : result string :=
  let* result := match_result resume_profile_json job_profile_json in
  ok (json_dumps (Some 2) (JDict result)).

End Tools.
End match_tools.

(* ===================================================================== *)
(** * tools/json_tools.py *)
(* ===================================================================== *)

Module json_tools.
Import Py.
Section Tools.
Context `{Runtime}.

Definition parse_json (json_str : string) : result value :=
  json_loads json_str.

End Tools.
End json_tools.

(* ===================================================================== *)
(** * tools/improved_tools.py *)
(* ===================================================================== *)

Module improved_tools.
Import Py.
Section Tools.
Context `{Runtime}.

(** [try: x = json.loads(s)] with [except Exception: x = {}]. The
    warning the handler logs is not modelled. *)
Definition loads_or_empty (s : string) : value :=
  try_except (json_loads s) (JDict []).

(** Lines 35-40: the score, coerced and clamped. *)
Definition coerce_score (score : value) : float :=
  let score := try_except (py_float score) 0%float in
  py_max 0%float (py_min 1%float score).

(** [sorted({str(s).strip().lower() for s in field if str(s).strip()})] *)
Definition clean_skills (field : value) : result (list string) :=
  let* items := py_iter field in
  let kept :=
    List.filter (λ s, negb (String.eqb (strip (py_str s)) "")) items in
  ok (py_sorted (list_to_set (map (λ s, lower (strip (py_str s))) kept))).

(** The [normalized] dict of [validate_match_output], from [data]. *)
Definition normalize (data : value) : result dict :=
  let* score := call_get data "score" (JFloat 0%float) in
  let score := coerce_score score in
  let* overlapping := call_get data "overlapping_skills" (JList []) in
  let overlapping := py_or overlapping (JList []) in
  let* missing := call_get data "missing_skills" (JList []) in
  let missing := py_or missing (JList []) in
  let* explanation := call_get data "explanation" (JStr "") in
  let explanation := py_or explanation (JStr "") in
  let* overlapping := clean_skills overlapping in
  let* missing := clean_skills missing in
  ok [ ("score", JFloat score);
       ("overlapping_skills", JList (map JStr overlapping));
       ("missing_skills", JList (map JStr missing));
       ("explanation", explanation) ].

Definition validate_match_output (match_json_str : string) : result string :=
  let data := loads_or_empty match_json_str in
  let* normalized := normalize data in
  ok (json_dumps None (JDict normalized)).

(** [', '.join(x[:n]) if x else default] *)
Definition join_first (n : nat) (x : value) (default : string)
    : result string :=
  if truthy x then let* head := slice_to n x in py_join ", " head
  else ok default.

Definition explain_match
    (resume_profile_json job_profile_json match_result_json : string)
    : result string :=
  let resume_profile := loads_or_empty resume_profile_json in
  let job_profile := loads_or_empty job_profile_json in
  let match_result := loads_or_empty match_result_json in
  let* score := call_get match_result "score" (JFloat 0%float) in
  let* score := py_float score in
  let* overlapping := call_get match_result "overlapping_skills" (JList []) in
  let overlapping := py_or overlapping (JList []) in
  let* missing := call_get match_result "missing_skills" (JList []) in
  let missing := py_or missing (JList []) in
  let* name := call_get resume_profile "name" (JStr "the candidate") in
  let* role_title := call_get job_profile "role_title" (JStr "this role") in
  let label :=
    if PrimFloat.leb 0.8%float score then "strong"
    else if PrimFloat.leb 0.5%float score then "moderate"
    else "limited" in
  let* strengths_str :=
    join_first 8 overlapping "no clear overlapping skills detected" in
  let* gaps_str := join_first 8 missing "no major skill gaps identified" in
  ok ("Overall, " ++ py_str name ++ " appears to be a " ++ label
        ++ " match for " ++ py_str role_title ++ " with a score of "
        ++ format_2f score ++ ". "
        ++ "Key overlapping skills include: " ++ strengths_str ++ ". "
        ++ "Important skills that are emphasized in the job description but appear weaker or missing in the resume "
        ++ "include: " ++ gaps_str ++ ". "
        ++ "This suggests that the candidate is well-aligned on several core requirements but could strengthen "
        ++ "their profile by gaining or better highlighting experience in the missing areas.").

Definition suggest_resume_edits
    (resume_profile_json job_profile_json match_result_json : string)
    : result string :=
  let resume_profile := loads_or_empty resume_profile_json in
  let job_profile := loads_or_empty job_profile_json in
  let match_result := loads_or_empty match_result_json in
  let* name := call_get resume_profile "name" (JStr "you") in
  let* role_title := call_get job_profile "role_title" (JStr "this role") in
  let* required_skills := call_get job_profile "required_skills" (JList []) in
  let required_skills := py_or required_skills (JList []) in
  let* overlapping := call_get match_result "overlapping_skills" (JList []) in
  let overlapping := py_or overlapping (JList []) in
  let* missing := call_get match_result "missing_skills" (JList []) in
  let missing := py_or missing (JList []) in
  let header :=
    [ "Tailoring suggestions for " ++ py_str name ++ " targeting "
        ++ py_str role_title ++ ":";
      "" ] in
  let* part_overlap :=
    if truthy overlapping then
      let* head := slice_to 10 overlapping in
      let* text := py_join ", " head in
      ok [ "- Highlight these overlapping skills in your summary and skills section, since they directly match the job requirements:";
           "  " ++ text;
           "" ]
    else ok [] in
  let* part_missing :=
    if truthy missing then
      let* head := slice_to 10 missing in
      let* text := py_join ", " head in
      ok [ "- The job emphasizes the following skills that are weak or missing in your current resume:";
           "  " ++ text;
           "  If you have any exposure (courses, projects, internships), add bullets explicitly mentioning them.";
           "" ]
    else ok [] in
  let* part_required :=
    if truthy required_skills then
      let* head := slice_to 12 required_skills in
      let* text := py_join ", " head in
      ok [ "- Rephrase some existing bullets to mirror key JD terms (without fabricating experience). Use wording like:";
           "  Example JD keywords: " ++ text;
           "" ]
    else ok [] in
  let closing :=
    [ "- Add one line in your professional summary explicitly targeting this type of role, e.g., 'MS CS candidate with hands-on experience in X and Y, targeting roles in Z.'" ] in
  ok (join nl (header ++ part_overlap ++ part_missing ++ part_required
                 ++ closing)%list).

Definition generate_targeted_bullets
    (resume_profile_json job_profile_json : string) : result string :=
  let resume_profile := loads_or_empty resume_profile_json in
  let job_profile := loads_or_empty job_profile_json in
  let* name := call_get resume_profile "name" (JStr "") in
  let* role_title := call_get job_profile "role_title" (JStr "the role") in
  let* required_skills := call_get job_profile "required_skills" (JList []) in
  let required_skills := py_or required_skills (JList []) in
  let* top_skills := slice_to 5 required_skills in
  let header := [ "Suggested bullets tailored for " ++ py_str role_title ++ ":" ] in
  let* part_skills :=
    if truthy top_skills then
      let* head := slice_to 3 top_skills in
      let* text := py_join ", " head in
      let first :=
        "- Designed and implemented features leveraging " ++ text
          ++ " to meet project or course requirements with a focus on reliability and performance." in
      let* n := py_len top_skills in
      if (1 <? n)%nat then
        let* s0 := py_index 0 top_skills in
        let* s1 := py_index 1 top_skills in
        ok [ first;
             "- Built end-to-end functionality combining " ++ py_str s0
               ++ " and " ++ py_str s1
               ++ " in a team setting, using Git-based workflows and code reviews." ]
      else ok [ first ]
    else ok [] in
  let fixed :=
    [ "- Applied software engineering best practices (version control, testing, CI/CD where applicable) to keep changes safe and maintainable.";
      "- Communicated technical decisions and trade-offs clearly to teammates, adapting explanations for both technical and non-technical collaborators." ] in
  let part_name :=
    if truthy name then
      [ "- As " ++ py_str name
          ++ ", proactively explored new tools and frameworks relevant to this role and integrated them into projects." ]
    else [] in
  ok (join nl (header ++ part_skills ++ fixed ++ part_name)%list).

(** The [record] dict of [log_run]. *)
Definition run_record (w : world)
    (resume_profile job_profile match_result : value) (email_text : string)
    : result dict :=
  let* candidate_name := call_get_none resume_profile "name" in
  let* role_title := call_get_none job_profile "role_title" in
  let* location := call_get_none job_profile "location" in
  let* score := call_get_none match_result "score" in
  let* overlapping := call_get_none match_result "overlapping_skills" in
  let* missing := call_get_none match_result "missing_skills" in
  ok [ ("timestamp_utc", JStr (utcnow_iso w ++ "Z"));
       ("candidate_name", candidate_name);
       ("role_title", role_title);
       ("location", location);
       ("score", score);
       ("overlapping_skills", overlapping);
       ("missing_skills", missing);
       ("email_preview", JStr (String.substring 0 300 email_text)) ].

Definition log_path : string := "runs_log.jsonl".

(** [log_run] in a world: what it returns or raises, and the world
    after. The warning logged on failure is not modelled. *)
Definition log_run (w : world)
    (resume_profile_json job_profile_json match_result_json
       email_text : string)
    : result string * world :=
  let resume_profile := loads_or_empty resume_profile_json in
  let job_profile := loads_or_empty job_profile_json in
  let match_result := loads_or_empty match_result_json in
  match run_record w resume_profile job_profile match_result email_text with
  | inl e => (raise e, w)
  | inr record =>
      match append_to (log_file w) (json_dumps None (JDict record) ++ nl) with
      | inr f =>
          (ok ("Run logged to " ++ log_path ++ "."),
           {| utcnow_iso := utcnow_iso w; log_file := f |})
      | inl e => (ok ("Failed to log run: " ++ exn_str e), w)
      end
  end.

End Tools.
End improved_tools.

(* ===================================================================== *)
(** * tools/outreach_tools.py *)
(* ===================================================================== *)

Module outreach_tools.
Import Py.
Section Tools.
Context `{Runtime}.

Definition draft_outreach_email
    (resume_profile_json job_profile_json match_result_json : string)
    : result string :=
  let* resume_profile := json_loads resume_profile_json in
  let* job_profile := json_loads job_profile_json in
  let* match_result := json_loads match_result_json in
  let* name := call_get resume_profile "name" (JStr "Candidate") in
  let* role := call_get job_profile "role_title" (JStr "the role") in
  let* location := call_get job_profile "location" (JStr "your team") in
  let* score := call_get match_result "score" (JFloat 0%float) in
  let* overlapping := call_get match_result "overlapping_skills" (JList []) in
  let* missing := call_get match_result "missing_skills" (JList []) in
  let* overlap_str :=
    if truthy overlapping then py_join ", " overlapping
    else ok "relevant experience" in
  let* missing_str :=
    if truthy missing then let* t := py_join ", " missing in ok (Some t)
    else ok None in
  let intro_line :=
    "I hope you're doing well. My name is " ++ py_str name
      ++ ", and I'm very interested in the " ++ py_str role ++ " opportunity"
      ++ (if truthy location && differs_from_str location "Not specified"
          then " in " ++ py_str location else "")
      ++ "." in
  let strengths_line :=
    "From reviewing the job description, I believe my background is a strong match, "
      ++ "especially in " ++ overlap_str ++ "." in
  let aligned :=
    "I believe my current skill set already aligns very closely with the listed requirements." in
  let growth_line :=
    match missing_str with
    | Some t =>
        if negb (String.eqb t "") then
          "I'm also excited to grow further in " ++ t
            ++ ", and I'm actively learning or using "
            ++ "these in my recent projects."
        else aligned
    | None => aligned
    end in
  let* score_text := py_format_2f score in
  let score_line :=
    "(Approximate skill match score from my agent: " ++ score_text ++ ")." in
  ok ("Subject: Interest in " ++ py_str role ++ nl
        ++ nl
        ++ "Hi," ++ nl
        ++ nl
        ++ intro_line ++ nl
        ++ strengths_line ++ nl
        ++ growth_line ++ nl
        ++ nl
        ++ score_line ++ nl
        ++ nl
        ++ "If you think there could be a fit, I would love the chance to discuss how I can contribute to your team." ++ nl
        ++ nl
        ++ "Best regards," ++ nl
        ++ py_str name ++ nl).

End Tools.
End outreach_tools.

(* ===================================================================== *)
(** * Notions used in the statements, and example inputs *)
(* ===================================================================== *)

Import Py.

(** A string is left-trimmed when it does not start with a blank. *)
Definition no_leading_space (s : string) : Prop :=
  match s with
  | EmptyString => True
  | String c _ => is_space c = false
  end.

(** [max(0.0, min(1.0, f))] *)
Definition clamp (f : float) : float := py_max 0%float (py_min 1%float f).

(** A cleaned skill: trimmed, lower-case and not empty. *)
Definition clean_skill (s : string) : Prop :=
  strip s = s ∧ lower s = s ∧ s ≠ "".

(** A cleaned skill list: cleaned skills, each once, ascending. *)
Definition canonical_skills (l : list string) : Prop :=
  Forall clean_skill l ∧ NoDup l ∧ Sorted String.le l.

(** JSON text of a value, as the tools exchange it. *)
Definition text_of (v : value) : string := Ref.dumps None v.

(** The example of the specification as two JSON profiles: resume skills
    Python and SQL, job skills python, react and sql. *)
Definition example_resume : string :=
  text_of (JDict [("name", JStr "Jane Doe");
                  ("skills", JList [JStr "Python"; JStr "SQL"])]).

Definition example_job : string :=
  text_of (JDict [("role_title", JStr "Backend Engineer");
                  ("required_skills",
                   JList [JStr "python"; JStr "react"; JStr "sql"])]).

(** A match result as it could reach the validator: score out of range,
    skills in mixed case with a duplicate and blanks. *)
Definition example_match : string :=
  text_of (JDict [("score", JFloat 1.5%float);
                  ("overlapping_skills",
                   JList [JStr "Python"; JStr "python"; JStr " SQL "])]).

(** What the validator makes of [example_match]. *)
Definition example_normalized : dict :=
  [ ("score", JFloat 1%float);
    ("overlapping_skills", JList [JStr "python"; JStr "sql"]);
    ("missing_skills", JList []);
    ("explanation", JStr "") ].

(** A text with a phrase of the vocabulary that contains another entry. *)
Definition example_text : string :=
  "Built Spring Boot services behind RESTful APIs".

(** The end-to-end scenario of the specification. *)
Definition scenario_resume_text : string :=
  "Jane Doe" ++ nl ++ "Skilled in Python, SQL, and React.".

Definition scenario_job_text : string :=
  "Job Title: Backend Engineer" ++ nl ++ "Location: Remote" ++ nl
    ++ "Required: Python, SQL, Kafka.".

(** Every character of [s] satisfies [p]. *)
Fixpoint all_chars (p : ascii → bool) (s : string) : bool :=
  match s with
  | EmptyString => true
  | String c s' => p c && all_chars p s'
  end.

(** The default result: what an empty mapping normalizes to. *)
Definition default_match : dict :=
  [ ("score", JFloat 0%float); ("overlapping_skills", JList []);
    ("missing_skills", JList []); ("explanation", JStr "") ].

(** The scores the engine can produce for up to [bound] required
    skills, checked by evaluation: [round(k / n, 3)] lies between 0 and
    1, so the clamp leaves it alone, and it is 1 or 0 only for [k = n]
    or [k = 0]. *)
Definition score_table_ok (bound : nat) : bool :=
  forallb
    (λ n, forallb
            (λ k, let score := py_round (int_truediv k n) 3 in
                  PrimFloat.Leibniz.eqb (clamp score) score
                  && PrimFloat.leb 0 score && PrimFloat.leb score 1
                  && ((n =? 0)%nat
                      || Bool.eqb (PrimFloat.Leibniz.eqb score 1) (k =? n)%nat
                         && Bool.eqb (PrimFloat.Leibniz.eqb score 0)
                              (k =? 0)%nat))
            (seq 0 (S n)))
    (seq 0 (S bound)).

(** The keys of a log record, in the order they are written. *)
Definition record_keys : list string :=
  [ "timestamp_utc"; "candidate_name"; "role_title"; "location"; "score";
    "overlapping_skills"; "missing_skills"; "email_preview" ].

(* ===================================================================== *)
(** * Properties *)
(* ===================================================================== *)

(** ** Characters and strings *)

Ltac each_char c := destruct c as [[] [] [] [] [] [] [] []]; reflexivity.

Lemma lower_char_idem (c : ascii) : lower_char (lower_char c) = lower_char c.
Proof. each_char c. Qed.

Lemma is_space_lower_char (c : ascii) : is_space (lower_char c) = is_space c.
Proof. each_char c. Qed.

Lemma lower_idem (s : string) : lower (lower s) = lower s.
Proof.
  induction s as [|c s IH]; simpl; [done|].
  by rewrite lower_char_idem, IH.
Qed.

Lemma lower_nonempty (s : string) : s ≠ "" → lower s ≠ "".
Proof. by destruct s. Qed.

Lemma lower_app (s t : string) : lower (s ++ t) = lower s ++ lower t.
Proof. induction s as [|c s IH]; simpl; [done|]. by rewrite IH. Qed.

Lemma lstrip_lower (s : string) : lstrip (lower s) = lower (lstrip s).
Proof.
  induction s as [|c s IH]; simpl; [done|].
  rewrite is_space_lower_char. by destruct (is_space c).
Qed.

Lemma rstrip_lower (s : string) : rstrip (lower s) = lower (rstrip s).
Proof.
  induction s as [|c s IH]; simpl; [done|].
  rewrite IH, is_space_lower_char.
  destruct (rstrip s); simpl; [by destruct (is_space c)|done].
Qed.

Lemma strip_lower (s : string) : strip (lower s) = lower (strip s).
Proof. unfold strip. by rewrite lstrip_lower, rstrip_lower. Qed.

Lemma lstrip_no_leading_space (s : string) : no_leading_space (lstrip s).
Proof.
  induction s as [|c s IH]; simpl; [done|].
  destruct (is_space c) eqn:E; simpl; done.
Qed.

Lemma lstrip_fixed (s : string) : no_leading_space s → lstrip s = s.
Proof. destruct s as [|c s]; simpl; [done|]. by intros ->. Qed.

Lemma rstrip_no_leading_space (s : string) :
  no_leading_space s → no_leading_space (rstrip s).
Proof.
  destruct s as [|c s]; simpl; [done|]. intros Hc.
  destruct (rstrip s); simpl; [by rewrite Hc|done].
Qed.

Lemma rstrip_idem (s : string) : rstrip (rstrip s) = rstrip s.
Proof.
  induction s as [|c s IH]; simpl; [done|].
  destruct (rstrip s) as [|d r] eqn:E.
  - destruct (is_space c) eqn:Ec; simpl; [done|]. by rewrite Ec.
  - simpl in *. by rewrite IH.
Qed.

Lemma strip_idem (s : string) : strip (strip s) = strip s.
Proof.
  unfold strip.
  rewrite (lstrip_fixed (rstrip (lstrip s))).
  - apply rstrip_idem.
  - apply rstrip_no_leading_space, lstrip_no_leading_space.
Qed.

(** The cleaned form of a skill is a fixed point of all three steps. *)
Lemma strip_lower_strip (s : string) :
  strip (lower (strip s)) = lower (strip s).
Proof. by rewrite strip_lower, strip_idem. Qed.

Lemma startswith_app (s p q : string) :
  startswith s (p ++ q) = true → startswith s p = true.
Proof.
  revert s. induction p as [|a p IH]; intros s; simpl; [by destruct s|].
  destruct s as [|b s]; [done|].
  intros [Hab Hs]%andb_prop. simpl. rewrite Hab. simpl. eauto.
Qed.

Lemma str_in_nil (sub : string) : str_in sub "" = startswith "" sub.
Proof. simpl. apply orb_false_r. Qed.

Lemma str_in_cons (sub : string) (c : ascii) (s : string) :
  str_in sub (String c s) = startswith (String c s) sub || str_in sub s.
Proof. reflexivity. Qed.

(** A text that contains a phrase contains every prefix of the phrase. *)
Lemma str_in_app (s p q : string) :
  str_in (p ++ q) s = true → str_in p s = true.
Proof.
  induction s as [|c s IH].
  - rewrite !str_in_nil. apply startswith_app.
  - rewrite !str_in_cons. intros [Hs|Hs]%orb_prop.
    + by rewrite (startswith_app _ _ _ Hs).
    + rewrite (IH Hs). apply orb_true_r.
Qed.

Lemma startswith_lower (s p : string) :
  startswith s p = true → startswith (lower s) (lower p) = true.
Proof.
  revert s. induction p as [|a p IH]; intros s; simpl; [by destruct s|].
  destruct s as [|b s]; simpl; [done|].
  intros [Hab Hs]%andb_prop. apply Ascii.eqb_eq in Hab as ->.
  by rewrite Ascii.eqb_refl, IH.
Qed.

Lemma str_in_lower (s p : string) :
  str_in p s = true → str_in (lower p) (lower s) = true.
Proof.
  induction s as [|c s IH].
  - rewrite !str_in_nil. apply (startswith_lower "").
  - change (lower (String c s)) with (String (lower_char c) (lower s)).
    rewrite !str_in_cons. intros [Hs|Hs]%orb_prop.
    + apply (startswith_lower (String c s)) in Hs.
      change (lower (String c s)) with (String (lower_char c) (lower s)) in Hs.
      by rewrite Hs.
    + rewrite (IH Hs). apply orb_true_r.
Qed.

(** ** [sorted] of a set *)

Lemma py_sorted_perm (X : gset string) : py_sorted X ≡ₚ elements X.
Proof. apply merge_sort_Permutation. Qed.

Lemma elem_of_py_sorted (X : gset string) (s : string) :
  s ∈ py_sorted X ↔ s ∈ X.
Proof. by rewrite py_sorted_perm, elem_of_elements. Qed.

Lemma NoDup_py_sorted (X : gset string) : NoDup (py_sorted X).
Proof. rewrite py_sorted_perm. apply NoDup_elements. Qed.

Lemma Sorted_py_sorted (X : gset string) : Sorted String.le (py_sorted X).
Proof. apply (Sorted_merge_sort _). Qed.

Lemma length_py_sorted (X : gset string) : List.length (py_sorted X) = size X.
Proof. by rewrite py_sorted_perm. Qed.

(** A list that is already ascending and free of duplicates is what
    [sorted] returns for the set of its elements. *)
Lemma py_sorted_fixed (l : list string) :
  Sorted String.le l → NoDup l → py_sorted (list_to_set l) = l.
Proof.
  intros Hs Hn.
  apply (Sorted_unique String.le); [apply Sorted_py_sorted|done|].
  rewrite py_sorted_perm. by apply elements_list_to_set.
Qed.

(** ** The loop that removes duplicates *)

Lemma dedup_fold (found : list string) (seen : gset string)
    (result : list string) :
  (∀ s, s ∈ seen ↔ s ∈ result) → NoDup result →
  let st := fold_left resume_tools.dedup_step found (seen, result) in
  (∀ s, s ∈ st.2 ↔ s ∈ result ∨ s ∈ found) ∧ NoDup st.2.
Proof.
  revert seen result.
  induction found as [|x found IH]; intros seen result Hseen Hnd; simpl.
  - split; [|done]. intros s. rewrite elem_of_nil. tauto.
  - assert (resume_tools.dedup_step (seen, result) x
            = if decide (x ∈ seen) then (seen, result)
              else ({[x]} ∪ seen, (result ++ [x])%list)) as -> by done.
    destruct (decide (x ∈ seen)) as [Hx|Hx].
    + destruct (IH seen result Hseen Hnd) as [Hin Hnd'].
      split; [|done]. intros s. rewrite Hin, elem_of_cons.
      split; [tauto|]. intros [?|[->|?]]; auto.
      left. by apply Hseen.
    + destruct (IH ({[x]} ∪ seen) (result ++ [x])%list) as [Hin Hnd'].
      * intros s. rewrite elem_of_union, elem_of_singleton, elem_of_app,
          list_elem_of_singleton, Hseen. tauto.
      * apply NoDup_app. split; [done|]. split; [|apply NoDup_singleton].
        intros s Hs ->%list_elem_of_singleton. by apply Hx, Hseen.
      * split; [|done]. intros s.
        rewrite Hin, elem_of_app, list_elem_of_singleton, elem_of_cons. tauto.
Qed.

Lemma elem_of_dedup (found : list string) (s : string) :
  s ∈ resume_tools.dedup found ↔ s ∈ found.
Proof.
  destruct (dedup_fold found ∅ []) as [Hin _].
  - intros x. rewrite elem_of_nil. set_solver.
  - constructor.
  - unfold resume_tools.dedup. rewrite Hin, elem_of_nil. tauto.
Qed.

Lemma NoDup_dedup (found : list string) : NoDup (resume_tools.dedup found).
Proof.
  destruct (dedup_fold found ∅ []) as [_ Hnd]; [|constructor|done].
  intros x. rewrite elem_of_nil. set_solver.
Qed.

Lemma elem_of_found_in (vocabulary : list string) (text s : string) :
  s ∈ resume_tools.found_in vocabulary text
  ↔ s ∈ vocabulary ∧ str_in s text = true.
Proof.
  unfold resume_tools.found_in.
  rewrite !list_elem_of_In, filter_In. tauto.
Qed.

(** ** Skill extraction *)

Lemma elem_of_extract_skills (text s : string) :
  s ∈ resume_tools._extract_skills text
  ↔ s ∈ resume_tools.COMMON_SKILLS ∧ str_in s (lower text) = true.
Proof.
  unfold resume_tools._extract_skills.
  by rewrite elem_of_dedup, elem_of_found_in.
Qed.

Lemma elem_of_extract_required_skills (text s : string) :
  s ∈ job_tools._extract_required_skills text
  ↔ s ∈ job_tools.COMMON_SKILLS ∧ str_in s (lower text) = true.
Proof.
  unfold job_tools._extract_required_skills.
  by rewrite elem_of_dedup, elem_of_found_in.
Qed.

Lemma elem_of_extract_skills_from_text (text s : string) :
  s ∈ match_tools._extract_skills_from_text text
  ↔ s ∈ match_tools._SKILL_VOCAB ∧ str_in s (lower text) = true.
Proof.
  unfold match_tools._extract_skills_from_text.
  rewrite elem_of_py_sorted, elem_of_list_to_set.
  rewrite !list_elem_of_In, filter_In. tauto.
Qed.

Local Ltac in_vocabulary :=
  apply list_elem_of_In; vm_compute; tauto.

(** C10. Recognition is plain substring containment, so a vocabulary
    entry inside a longer recognised phrase is reported too: when the
    lower-cased text contains "spring boot", both "spring" and "spring
    boot" are in the skill lists that [parse_resume] and
    [parse_job_description] put in their profiles; and a text that
    contains "restful" (as written or once lower-cased) has "rest" in
    both lists. *)
Theorem substring_entries_reported_together (text : string) :
  (str_in "spring boot" (lower text) = true →
   ∃ skills required : list string,
     dict_lookup "skills" (resume_tools.resume_profile text)
       = Some (JList (map JStr skills))
     ∧ dict_lookup "required_skills" (job_tools.job_profile text)
       = Some (JList (map JStr required))
     ∧ "spring" ∈ skills ∧ "spring boot" ∈ skills
     ∧ "spring" ∈ required ∧ "spring boot" ∈ required)
  ∧ (str_in "restful" text = true ∨ str_in "restful" (lower text) = true →
     ∃ skills required : list string,
       dict_lookup "skills" (resume_tools.resume_profile text)
         = Some (JList (map JStr skills))
       ∧ dict_lookup "required_skills" (job_tools.job_profile text)
         = Some (JList (map JStr required))
       ∧ "rest" ∈ skills ∧ "rest" ∈ required).
Proof.
  split.
  - intros Hboot.
    assert (str_in "spring" (lower text) = true) as Hspring
      by exact (str_in_app (lower text) "spring" " boot" Hboot).
    exists (resume_tools._extract_skills text),
           (job_tools._extract_required_skills text).
    repeat split; try reflexivity.
    + apply elem_of_extract_skills. split; [in_vocabulary|done].
    + apply elem_of_extract_skills. split; [in_vocabulary|done].
    + apply elem_of_extract_required_skills. split; [in_vocabulary|done].
    + apply elem_of_extract_required_skills. split; [in_vocabulary|done].
  - intros Hful.
    assert (str_in "restful" (lower text) = true) as Hful'.
    { destruct Hful as [Hraw|Hlow]; [|done].
      exact (str_in_lower text "restful" Hraw). }
    assert (str_in "rest" (lower text) = true) as Hrest
      by exact (str_in_app (lower text) "rest" "ful" Hful').
    exists (resume_tools._extract_skills text),
           (job_tools._extract_required_skills text).
    repeat split; try reflexivity.
    + apply elem_of_extract_skills. split; [in_vocabulary|done].
    + apply elem_of_extract_required_skills. split; [in_vocabulary|done].
Qed.

(** The fallback of [_ensure_resume_profile] and [_ensure_job_profile]. *)
Lemma ensure_profile_fallback `{Runtime} (value : string) :
  (∀ obj, json_loads value ≠ inr (JDict obj)) →
  match_tools._ensure_resume_profile value
    = [ ("raw_text", JStr value);
        ("skills",
         JList (map JStr (match_tools._extract_skills_from_text value))) ]
  ∧ match_tools._ensure_job_profile value
    = [ ("raw_text", JStr value);
        ("required_skills",
         JList (map JStr (match_tools._extract_skills_from_text value))) ].
Proof.
  intros Hnot.
  unfold match_tools._ensure_resume_profile, match_tools._ensure_job_profile.
  destruct (json_loads value) as [e|[]]; try done.
  by destruct (Hnot d).
Qed.

(** C4, as amended. For an input that does not parse to a JSON mapping,
    both normalizers return the minimal profile whose skill list comes
    from [match_tools]' own extractor: exactly the entries of
    [_SKILL_VOCAB] that occur in the lower-cased text, each once, in
    ascending lexicographic order. *)
Theorem fallback_skills_own_vocabulary_sorted `{Runtime} (value : string) :
  (∀ obj, json_loads value ≠ inr (JDict obj)) →
  ∃ skills : list string,
    match_tools._ensure_resume_profile value
      = [ ("raw_text", JStr value); ("skills", JList (map JStr skills)) ]
    ∧ match_tools._ensure_job_profile value
      = [ ("raw_text", JStr value);
          ("required_skills", JList (map JStr skills)) ]
    ∧ (∀ s, s ∈ skills
            ↔ s ∈ match_tools._SKILL_VOCAB ∧ str_in s (lower value) = true)
    ∧ NoDup skills
    ∧ Sorted String.le skills.
Proof.
  intros Hnot. exists (match_tools._extract_skills_from_text value).
  destruct (ensure_profile_fallback value Hnot) as [-> ->].
  split; [done|]. split; [done|]. split; [|split].
  - intros s. apply elem_of_extract_skills_from_text.
  - apply NoDup_py_sorted.
  - apply Sorted_py_sorted.
Qed.

(** ** The match engine *)

Lemma mapM_call_lower (l : list string) :
  mapM call_lower (map JStr l) = ok (map lower l).
Proof. induction l as [|s l IH]; simpl; [done|]. by rewrite IH. Qed.

Lemma lowered_strings (l : list string) :
  match_tools.lowered (JList (map JStr l)) = ok (map lower l).
Proof. unfold match_tools.lowered. simpl. apply mapM_call_lower. Qed.

(** What [compute_match] builds when both skill fields are lists of
    strings: nothing raises, and the result dict is the source's. *)
Lemma match_result_strings `{Runtime} (resume_json job_json : string)
    (resume_skills job_skills : list string) :
  dict_get "skills" (JList []) (match_tools._ensure_resume_profile resume_json)
    = JList (map JStr resume_skills) →
  dict_get "required_skills" (JList [])
      (match_tools._ensure_job_profile job_json)
    = JList (map JStr job_skills) →
  let resume_set : gset string := list_to_set (map lower resume_skills) in
  let job_set : gset string := list_to_set (map lower job_skills) in
  let overlap := py_sorted (resume_set ∩ job_set) in
  let missing := py_sorted (job_set ∖ resume_set) in
  ∃ explanation : string,
    match_tools.match_result resume_json job_json
    = ok [ ("score",
            JFloat (py_round
                      (if decide (job_set = ∅) then 0%float
                       else int_truediv (List.length overlap) (size job_set))
                      3));
           ("overlapping_skills", JList (map JStr overlap));
           ("missing_skills", JList (map JStr missing));
           ("explanation", JStr explanation) ].
Proof.
  intros Hr Hj. unfold match_tools.match_result.
  rewrite Hr, Hj, !lowered_strings. simpl. eauto.
Qed.

(** C2. When both skill fields are lists of strings, [compute_match]
    returns, and its [overlapping_skills] and [missing_skills] lists are
    disjoint, together hold exactly the lower-cased required skills of
    the job, and are each in ascending lexicographic order (and free of
    duplicates); the overlap is the part the resume also has. *)
Theorem overlap_and_missing_partition_required `{Runtime}
    (resume_json job_json : string)
    (resume_skills job_skills : list string) :
  dict_get "skills" (JList []) (match_tools._ensure_resume_profile resume_json)
    = JList (map JStr resume_skills) →
  dict_get "required_skills" (JList [])
      (match_tools._ensure_job_profile job_json)
    = JList (map JStr job_skills) →
  ∃ (result : dict) (overlap missing : list string),
    match_tools.compute_match resume_json job_json
      = ok (json_dumps (Some 2) (JDict result))
    ∧ match_tools.match_result resume_json job_json = ok result
    ∧ dict_lookup "overlapping_skills" result = Some (JList (map JStr overlap))
    ∧ dict_lookup "missing_skills" result = Some (JList (map JStr missing))
    ∧ (∀ s, ¬ (s ∈ overlap ∧ s ∈ missing))
    ∧ (∀ s, s ∈ overlap ∨ s ∈ missing ↔ s ∈ map lower job_skills)
    ∧ (∀ s, s ∈ overlap
            ↔ s ∈ map lower resume_skills ∧ s ∈ map lower job_skills)
    ∧ Sorted String.le overlap ∧ Sorted String.le missing
    ∧ NoDup overlap ∧ NoDup missing.
Proof.
  intros Hr Hj.
  destruct (match_result_strings _ _ _ _ Hr Hj) as [explanation Hres].
  eexists _, _, _. unfold match_tools.compute_match. rewrite Hres. simpl.
  split; [reflexivity|]. split; [reflexivity|].
  split; [reflexivity|]. split; [reflexivity|].
  split; [|split; [|split]].
  - intros s. rewrite !elem_of_py_sorted.
    rewrite elem_of_intersection, elem_of_difference. tauto.
  - intros s. rewrite !elem_of_py_sorted.
    rewrite elem_of_intersection, elem_of_difference, !elem_of_list_to_set.
    destruct (decide (s ∈ map lower resume_skills)); tauto.
  - intros s. rewrite !elem_of_py_sorted.
    by rewrite elem_of_intersection, !elem_of_list_to_set.
  - auto using Sorted_py_sorted, NoDup_py_sorted.
Qed.

Lemma py_round_zero : py_round 0%float 3 = 0%float.
Proof. reflexivity. Qed.

(** C1. When both skill fields are lists of strings, [compute_match]
    returns, and its score is [round(|overlap| / |job_set|, 3)] if the
    set of lower-cased required skills is not empty, and [0.0] if it is,
    whatever the resume's skills. *)
Theorem score_is_rounded_overlap_ratio `{Runtime}
    (resume_json job_json : string)
    (resume_skills job_skills : list string) :
  dict_get "skills" (JList []) (match_tools._ensure_resume_profile resume_json)
    = JList (map JStr resume_skills) →
  dict_get "required_skills" (JList [])
      (match_tools._ensure_job_profile job_json)
    = JList (map JStr job_skills) →
  let resume_set : gset string := list_to_set (map lower resume_skills) in
  let job_set : gset string := list_to_set (map lower job_skills) in
  ∃ (result : dict) (score : float),
    match_tools.compute_match resume_json job_json
      = ok (json_dumps (Some 2) (JDict result))
    ∧ match_tools.match_result resume_json job_json = ok result
    ∧ dict_lookup "score" result = Some (JFloat score)
    ∧ (job_set ≠ ∅ →
       score = py_round (int_truediv (size (resume_set ∩ job_set))
                                     (size job_set)) 3)
    ∧ (job_set = ∅ → score = 0%float).
Proof.
  intros Hr Hj resume_set job_set.
  destruct (match_result_strings _ _ _ _ Hr Hj) as [explanation Hres].
  eexists _, _. unfold match_tools.compute_match. rewrite Hres. simpl.
  split; [reflexivity|]. split; [reflexivity|]. split; [reflexivity|].
  fold resume_set job_set. rewrite length_py_sorted.
  destruct (decide (job_set = ∅)) as [He|Hne].
  - split; [done|]. intros _. apply py_round_zero.
  - split; done.
Qed.

(** ** The result validator *)

Lemma ltb_leb (a b : float) :
  PrimFloat.ltb a b = true → PrimFloat.leb a b = true.
Proof.
  rewrite ltb_spec, leb_spec. unfold SFltb, SFleb.
  by destruct (SFcompare _ _) as [[]|].
Qed.

Lemma clamp_cases (f : float) :
  (PrimFloat.ltb f 1 = true ∧ PrimFloat.ltb 0 f = true ∧ clamp f = f)
  ∨ clamp f = 0%float ∨ clamp f = 1%float.
Proof.
  unfold clamp, py_min, py_max.
  destruct (PrimFloat.ltb f 1) eqn:E1.
  - destruct (PrimFloat.ltb 0 f) eqn:E2; auto.
  - right. right. reflexivity.
Qed.

(** The clamped score lies in the closed interval from 0 to 1, also for
    infinities and NaN. *)
Lemma clamp_range (f : float) :
  PrimFloat.leb 0 (clamp f) = true ∧ PrimFloat.leb (clamp f) 1 = true.
Proof.
  destruct (clamp_cases f) as [(H1 & H0 & ->)|[->| ->]].
  - auto using ltb_leb.
  - split; reflexivity.
  - split; reflexivity.
Qed.

Lemma clamp_idem (f : float) : clamp (clamp f) = clamp f.
Proof.
  destruct (clamp_cases f) as [(H1 & H0 & ->)|[->| ->]]; try reflexivity.
  unfold clamp, py_min, py_max. by rewrite H1, H0.
Qed.

Lemma coerce_score_clamp (v : value) :
  improved_tools.coerce_score v = clamp (try_except (py_float v) 0%float).
Proof. reflexivity. Qed.

Lemma coerce_score_idem (v : value) :
  improved_tools.coerce_score (JFloat (improved_tools.coerce_score v))
  = improved_tools.coerce_score v.
Proof. rewrite !coerce_score_clamp. simpl. apply clamp_idem. Qed.

Lemma py_or_idem (x d : value) : py_or (py_or x d) d = py_or x d.
Proof.
  unfold py_or. destruct (truthy x) eqn:Ex; [by rewrite Ex|].
  by destruct (truthy d).
Qed.

Lemma py_or_list (l : list value) : py_or (JList l) (JList []) = JList l.
Proof. by destruct l. Qed.

Lemma clean_skills_canonical `{Runtime} (field : value) (l : list string) :
  improved_tools.clean_skills field = ok l → canonical_skills l.
Proof.
  unfold improved_tools.clean_skills.
  destruct (py_iter field) as [e|items]; simpl; [done|].
  intros [= <-]. split; [|split].
  - apply Forall_forall. intros s.
    rewrite elem_of_py_sorted, elem_of_list_to_set, list_elem_of_In, in_map_iff.
    intros (v & <- & [_ Hv]%filter_In).
    apply negb_true_iff, String.eqb_neq in Hv.
    split; [apply strip_lower_strip|].
    split; [apply lower_idem|by apply lower_nonempty].
  - apply NoDup_py_sorted.
  - apply Sorted_py_sorted.
Qed.

Lemma clean_skills_fixed `{Runtime} (l : list string) :
  canonical_skills l →
  improved_tools.clean_skills (JList (map JStr l)) = ok l.
Proof.
  intros (Hclean & Hnd & Hs). unfold improved_tools.clean_skills. simpl.
  f_equal. rewrite <- (py_sorted_fixed l Hs Hnd) at 2. do 2 f_equal.
  clear Hnd Hs. induction Hclean as [|s l (Hstrip & Hlow & Hne) _ IH]; simpl; [done|].
  rewrite Hstrip. apply String.eqb_neq in Hne as ->. simpl.
  by rewrite Hstrip, Hlow, IH.
Qed.

(** Every way [normalize] can return: [data] is a dict, both skill
    fields can be iterated, and the result is the four-key dict. *)
Lemma normalize_inv `{Runtime} (data : value) (normalized : dict) :
  improved_tools.normalize data = ok normalized →
  ∃ (d : dict) (overlapping missing : list string),
    data = JDict d
    ∧ improved_tools.clean_skills
        (py_or (dict_get "overlapping_skills" (JList []) d) (JList []))
      = ok overlapping
    ∧ improved_tools.clean_skills
        (py_or (dict_get "missing_skills" (JList []) d) (JList []))
      = ok missing
    ∧ normalized
      = [ ("score",
           JFloat (improved_tools.coerce_score
                     (dict_get "score" (JFloat 0%float) d)));
          ("overlapping_skills", JList (map JStr overlapping));
          ("missing_skills", JList (map JStr missing));
          ("explanation",
           py_or (dict_get "explanation" (JStr "") d) (JStr "")) ].
Proof.
  unfold improved_tools.normalize, call_get.
  destruct data as [| | | | | |d]; simpl; try done.
  destruct (improved_tools.clean_skills
              (py_or (dict_get "overlapping_skills" (JList []) d) (JList [])))
    as [e|overlapping] eqn:Eo; simpl; [done|].
  destruct (improved_tools.clean_skills
              (py_or (dict_get "missing_skills" (JList []) d) (JList [])))
    as [e|missing] eqn:Em; simpl; [done|].
  intros [= <-]. by exists d, overlapping, missing.
Qed.

(** The validator leaves its own result unchanged. *)
Lemma normalize_fixed `{Runtime} (data : value) (normalized : dict) :
  improved_tools.normalize data = ok normalized →
  improved_tools.normalize (JDict normalized) = ok normalized.
Proof.
  intros (d & overlapping & missing & -> & Ho & Hm & ->)%normalize_inv.
  apply clean_skills_canonical in Ho, Hm.
  unfold improved_tools.normalize, call_get. simpl.
  unfold dict_get. simpl.
  rewrite !py_or_list, (clean_skills_fixed _ Ho), (clean_skills_fixed _ Hm).
  simpl. by rewrite coerce_score_idem, py_or_idem.
Qed.

(** When the validator returns: exactly when the decoded input is a
    mapping (or not JSON at all) whose two skill fields can be iterated.
    A JSON array, number, string or null as the whole input raises
    [AttributeError]; a truthy number or [true] as a skill field raises
    [TypeError]. *)
Lemma normalize_returns_iff `{Runtime} (data : value) :
  (∃ normalized, improved_tools.normalize data = ok normalized)
  ↔ ∃ d items_o items_m,
      data = JDict d
      ∧ py_iter (py_or (dict_get "overlapping_skills" (JList []) d) (JList []))
        = ok items_o
      ∧ py_iter (py_or (dict_get "missing_skills" (JList []) d) (JList []))
        = ok items_m.
Proof.
  split.
  - intros [normalized (d & o & m & -> & Ho & Hm & _)%normalize_inv].
    unfold improved_tools.clean_skills in Ho, Hm.
    destruct (py_iter (py_or (dict_get "overlapping_skills" _ d) _))
      as [|items_o] eqn:Eo; [done|].
    destruct (py_iter (py_or (dict_get "missing_skills" _ d) _))
      as [|items_m] eqn:Em; [done|].
    by exists d, items_o, items_m.
  - intros (d & items_o & items_m & -> & Ho & Hm).
    unfold improved_tools.normalize, call_get, improved_tools.clean_skills.
    simpl. rewrite Ho, Hm. simpl. eauto.
Qed.

(** X18. Whenever the validator returns, the score it emits is the input's
    score field coerced with [float] (0.0 when the coercion raises) and
    clamped with [max(0.0, min(1.0, _))], so it lies between 0.0 and 1.0;
    for a mapping that holds a score of any kind and nothing else it
    does return; a score of 1.5 comes out as 1.0, -0.2 as 0.0 and the
    string abc as 0.0. *)
Theorem validator_score_coerced_and_clamped `{Runtime} :
  (∀ (x : string) (normalized : dict),
     improved_tools.normalize (improved_tools.loads_or_empty x)
       = ok normalized →
     ∃ (data : dict) (score : float),
       improved_tools.loads_or_empty x = JDict data
       ∧ improved_tools.validate_match_output x
         = ok (json_dumps None (JDict normalized))
       ∧ dict_lookup "score" normalized = Some (JFloat score)
       ∧ score
         = py_max 0%float
             (py_min 1%float
                match py_float (dict_get "score" (JFloat 0%float) data) with
                | inr f => f
                | inl _ => 0%float
                end)
       ∧ PrimFloat.leb 0 score = true
       ∧ PrimFloat.leb score 1 = true)
  ∧ (∀ score : value,
       improved_tools.normalize (JDict [("score", score)])
       = ok [ ("score",
               JFloat (py_max 0%float
                         (py_min 1%float
                            match py_float score with
                            | inr f => f
                            | inl _ => 0%float
                            end)));
              ("overlapping_skills", JList []);
              ("missing_skills", JList []); ("explanation", JStr "") ])
  ∧ improved_tools.normalize (JDict [("score", JFloat 1.5%float)])
    = ok [ ("score", JFloat 1%float); ("overlapping_skills", JList []);
           ("missing_skills", JList []); ("explanation", JStr "") ]
  ∧ improved_tools.normalize (JDict [("score", JFloat (-0.2)%float)])
    = ok [ ("score", JFloat 0%float); ("overlapping_skills", JList []);
           ("missing_skills", JList []); ("explanation", JStr "") ]
  ∧ improved_tools.normalize (JDict [("score", JStr "abc")])
    = ok [ ("score", JFloat 0%float); ("overlapping_skills", JList []);
           ("missing_skills", JList []); ("explanation", JStr "") ].
Proof.
  split; [|split; [intros score; reflexivity|repeat split; reflexivity]].
  intros x normalized Hn.
  destruct (normalize_inv _ _ Hn) as (d & o & m & Hd & _ & _ & ->).
  exists d, (improved_tools.coerce_score (dict_get "score" (JFloat 0%float) d)).
  split; [done|].
  split; [unfold improved_tools.validate_match_output; by rewrite Hn|].
  split; [done|]. split; [done|].
  rewrite coerce_score_clamp. apply clamp_range.
Qed.

(** X19. Whenever the validator returns, its [overlapping_skills] and
    [missing_skills] lists hold only trimmed, lower-case, non-empty
    strings, each once, in ascending lexicographic order; it does return
    for a mapping whose two skill fields are lists of any values; the
    list Python, python, SQL (with blanks around it) comes out as
    python, sql. *)
Theorem validator_skill_lists_canonical `{Runtime} :
  (∀ (x : string) (normalized : dict),
     improved_tools.normalize (improved_tools.loads_or_empty x)
       = ok normalized →
     ∃ overlapping missing : list string,
       improved_tools.validate_match_output x
         = ok (json_dumps None (JDict normalized))
       ∧ dict_lookup "overlapping_skills" normalized
         = Some (JList (map JStr overlapping))
       ∧ dict_lookup "missing_skills" normalized
         = Some (JList (map JStr missing))
       ∧ Forall (λ s, strip s = s ∧ lower s = s ∧ s ≠ "")
           (overlapping ++ missing)
       ∧ NoDup overlapping ∧ NoDup missing
       ∧ Sorted String.le overlapping ∧ Sorted String.le missing)
  ∧ (∀ overlapping missing : list value,
       ∃ normalized,
         improved_tools.normalize
           (JDict [ ("overlapping_skills", JList overlapping);
                    ("missing_skills", JList missing) ])
         = ok normalized)
  ∧ improved_tools.normalize
      (JDict [ ("overlapping_skills",
                JList [JStr "Python"; JStr "python"; JStr " SQL "]);
               ("missing_skills",
                JList [JStr "Python"; JStr "python"; JStr " SQL "]) ])
    = ok [ ("score", JFloat 0%float);
           ("overlapping_skills", JList [JStr "python"; JStr "sql"]);
           ("missing_skills", JList [JStr "python"; JStr "sql"]);
           ("explanation", JStr "") ].
Proof.
  split; [|split; [|vm_compute; reflexivity]].
  2: { intros overlapping missing. apply normalize_returns_iff.
       exists [ ("overlapping_skills", JList overlapping);
                ("missing_skills", JList missing) ], overlapping, missing.
       split; [done|]. unfold dict_get. simpl. by rewrite !py_or_list. }
  intros x normalized Hn.
  destruct (normalize_inv _ _ Hn) as (d & o & m & Hd & Ho & Hm & ->).
  apply clean_skills_canonical in Ho as (Hoc & Hon & Hos).
  apply clean_skills_canonical in Hm as (Hmc & Hmn & Hms).
  exists o, m.
  split; [unfold improved_tools.validate_match_output; by rewrite Hn|].
  split; [done|]. split; [done|].
  split; [by apply Forall_app|]. done.
Qed.

(** C5. The validator is idempotent: validating its own output gives
    that output again, and an input on which it raises makes the
    composition raise the same exception. The only assumption is that
    [json.loads] reads back what [json.dumps] wrote for the result of
    this input. *)
Theorem validate_match_output_idempotent `{Runtime} (x : string) :
  (∀ normalized,
     improved_tools.normalize (improved_tools.loads_or_empty x)
       = ok normalized →
     json_loads (json_dumps None (JDict normalized)) = ok (JDict normalized)) →
  (let* y := improved_tools.validate_match_output x in
   improved_tools.validate_match_output y)
  = improved_tools.validate_match_output x.
Proof.
  intros Hback. unfold improved_tools.validate_match_output at 1 3.
  destruct (improved_tools.normalize (improved_tools.loads_or_empty x))
    as [e|normalized] eqn:Hn; simpl; [done|].
  unfold improved_tools.validate_match_output, improved_tools.loads_or_empty.
  rewrite (Hback normalized eq_refl). simpl.
  by rewrite (normalize_fixed _ _ Hn).
Qed.

(** ** Parsing without a handler *)

(** C9. [parse_json] hands the decoder's exception to its caller: on
    every string that [json.loads] rejects it raises that error, where
    the tools of [improved_tools] fall back to an empty mapping. *)
Theorem parse_json_propagates_decode_error `{Runtime} (json_str : string)
    (e : exn) :
  json_loads json_str = raise e →
  json_tools.parse_json json_str = raise e
  ∧ improved_tools.loads_or_empty json_str = JDict [].
Proof.
  intros He. unfold json_tools.parse_json, improved_tools.loads_or_empty.
  by rewrite He.
Qed.

(** ** The derived-text generators *)

(** [draft_outreach_email] decodes its three arguments with no handler:
    the first decode error is its outcome. *)
Lemma draft_outreach_email_propagates `{Runtime}
    (resume_json job_json match_json : string) (e : exn) :
  json_loads resume_json = raise e →
  outreach_tools.draft_outreach_email resume_json job_json match_json
  = raise e.
Proof.
  intros He. unfold outreach_tools.draft_outreach_email. by rewrite He.
Qed.

(** X17. The three generators of [improved_tools] do degrade to their
    defaults when none of their arguments is JSON: each returns a text
    and none raises. *)
Lemma improved_generators_degrade `{Runtime}
    (resume_json job_json match_json : string) (e1 e2 e3 : exn) :
  json_loads resume_json = raise e1 →
  json_loads job_json = raise e2 →
  json_loads match_json = raise e3 →
  (∃ text, improved_tools.explain_match resume_json job_json match_json
           = ok text)
  ∧ (∃ text, improved_tools.suggest_resume_edits resume_json job_json
               match_json = ok text)
  ∧ (∃ text, improved_tools.generate_targeted_bullets resume_json job_json
             = ok text).
Proof.
  intros H1 H2 H3.
  unfold improved_tools.explain_match, improved_tools.suggest_resume_edits,
    improved_tools.generate_targeted_bullets, improved_tools.loads_or_empty.
  rewrite H1, H2, H3. repeat split; eexists; reflexivity.
Qed.

(** ** The run logger *)

(** With three mappings to read from, [log_run] never raises: it reports
    the outcome of the append in its status string. *)
Lemma log_run_reports_append `{Runtime} (w : world)
    (resume_json job_json match_json email_text : string)
    (r j m : dict) :
  improved_tools.loads_or_empty resume_json = JDict r →
  improved_tools.loads_or_empty job_json = JDict j →
  improved_tools.loads_or_empty match_json = JDict m →
  ∃ record : dict,
    improved_tools.run_record w (JDict r) (JDict j) (JDict m) email_text
      = ok record
    ∧ improved_tools.log_run w resume_json job_json match_json email_text
      = match log_file w with
        | Appendable content =>
            (ok "Run logged to runs_log.jsonl.",
             {| utcnow_iso := utcnow_iso w;
                log_file :=
                  Appendable
                    (content ++ json_dumps None (JDict record) ++ nl) |})
        | Unwritable err => (ok ("Failed to log run: " ++ err), w)
        end.
Proof.
  intros Hr Hj Hm. unfold improved_tools.log_run. rewrite Hr, Hj, Hm.
  eexists. split; [reflexivity|]. simpl.
  by destruct (log_file w).
Qed.

(* ===================================================================== *)
(** * The properties at concrete inputs, on the reference runtime *)
(* ===================================================================== *)

#[local] Existing Instance Ref.runtime.

(** C3 fails on the code. [draft_outreach_email] raises on an argument
    that is not JSON, as do all four generators on ill-typed input: a
    score that is the string abc, a JSON array where a mapping is
    expected, a number inside a skill list, a number as the skill
    list. *)
Theorem generators_can_raise :
  outreach_tools.draft_outreach_email "not json" "{}" "{}"
    = raise JSONDecodeError
  ∧ outreach_tools.draft_outreach_email "{}" "{}"
      (text_of (JDict [("score", JStr "abc")]))
    = raise ValueError
  ∧ improved_tools.explain_match "{}" "{}"
      (text_of (JDict [("score", JStr "abc")]))
    = raise ValueError
  ∧ improved_tools.explain_match "[]" "{}" "{}" = raise AttributeError
  ∧ improved_tools.suggest_resume_edits "{}" "{}"
      (text_of (JDict [("missing_skills", JList [JInt 1])]))
    = raise TypeError
  ∧ improved_tools.generate_targeted_bullets "{}"
      (text_of (JDict [("required_skills", JInt 5)]))
    = raise TypeError.
Proof. repeat split; vm_compute; reflexivity. Qed.

(** C8 fails on the code. When an argument decodes to something that is
    not a mapping (a JSON array, null, a number), [log_run] raises
    [AttributeError] while building the record, after the guarded
    decoding and before the guarded append, whatever the state of the
    log file, and leaves the world as it was. *)
Theorem log_run_raises_on_non_mapping (w : world) :
  improved_tools.log_run w "[]" "{}" "{}" "" = (raise AttributeError, w)
  ∧ improved_tools.log_run w "{}" "null" "{}" "" = (raise AttributeError, w)
  ∧ improved_tools.log_run w "not json" "{}" "1" "Hi,"
    = (raise AttributeError, w).
Proof. repeat split; vm_compute; reflexivity. Qed.

(** C6 fails on the code. The specification promises a coerced and
    clamped score for every input, and the docstring of [validate_match_output] a
    result with a score in the unit interval. With a score of 1.5, -0.2
    or abc beside a skill field that is a number or true, the validator
    coerces the score and then raises [TypeError] on the skill field, so
    no score is emitted; when the input is JSON and not a mapping (an
    array or a number holding 1.5) it raises [AttributeError] on the
    first [get]. The same score alone in a mapping comes out as 1.0. *)
Theorem validator_raises_despite_score :
  improved_tools.validate_match_output
    (text_of (JDict [("score", JFloat 1.5%float);
                     ("overlapping_skills", JInt 5)]))
    = raise TypeError
  ∧ improved_tools.validate_match_output
      (text_of (JDict [("score", JFloat (-0.2)%float);
                       ("missing_skills", JBool true)]))
    = raise TypeError
  ∧ improved_tools.validate_match_output
      (text_of (JDict [("score", JStr "abc"); ("missing_skills", JInt 7)]))
    = raise TypeError
  ∧ improved_tools.validate_match_output "[1.5]" = raise AttributeError
  ∧ improved_tools.validate_match_output "1.5" = raise AttributeError
  ∧ improved_tools.validate_match_output
      (text_of (JDict [("score", JFloat 1.5%float)]))
    = ok (text_of (JDict [ ("score", JFloat 1%float);
                           ("overlapping_skills", JList []);
                           ("missing_skills", JList []);
                           ("explanation", JStr "") ])).
Proof. repeat split; vm_compute; reflexivity. Qed.

(** C7 fails on the code. The specification promises cleaned skill
    lists for every input. A skill field that is a number other than zero or true
    passes the [or] default and cannot be iterated: the validator raises
    [TypeError] and emits no list, also when the other field is the list
    Python, python, SQL of the specification; with that list as the whole input,
    not inside a mapping, it raises [AttributeError]. The same list as
    the field of a mapping comes out as python, sql. *)
Theorem validator_raises_on_non_iterable_skills :
  improved_tools.validate_match_output
    (text_of (JDict [("overlapping_skills", JInt 5)]))
    = raise TypeError
  ∧ improved_tools.validate_match_output
      (text_of (JDict [("missing_skills", JBool true)]))
    = raise TypeError
  ∧ improved_tools.validate_match_output
      (text_of (JDict [ ("overlapping_skills",
                         JList [JStr "Python"; JStr "python"; JStr " SQL "]);
                        ("missing_skills", JFloat 0.5%float) ]))
    = raise TypeError
  ∧ improved_tools.validate_match_output
      (text_of (JList [JStr "Python"; JStr "python"; JStr " SQL "]))
    = raise AttributeError
  ∧ improved_tools.validate_match_output
      (text_of (JDict [ ("overlapping_skills",
                         JList [JStr "Python"; JStr "python"; JStr " SQL "]) ]))
    = ok (text_of (JDict [ ("score", JFloat 0%float);
                           ("overlapping_skills",
                            JList [JStr "python"; JStr "sql"]);
                           ("missing_skills", JList []);
                           ("explanation", JStr "") ])).
Proof. repeat split; vm_compute; reflexivity. Qed.

(** C4 fails as stated. On the text kafka the fallback finds no skill
    where the text extractors find kafka; on the text java angular the
    fallback lists angular before java where the extractors keep the
    vocabulary order. Neither text is JSON. *)
Lemma fallback_differs_from_text_extractor :
  json_loads "kafka" = raise JSONDecodeError
  ∧ match_tools._ensure_resume_profile "kafka"
    = [ ("raw_text", JStr "kafka"); ("skills", JList []) ]
  ∧ match_tools._ensure_job_profile "kafka"
    = [ ("raw_text", JStr "kafka"); ("required_skills", JList []) ]
  ∧ resume_tools._extract_skills "kafka" = ["kafka"]
  ∧ job_tools._extract_required_skills "kafka" = ["kafka"]
  ∧ json_loads "java angular" = raise JSONDecodeError
  ∧ match_tools._ensure_resume_profile "java angular"
    = [ ("raw_text", JStr "java angular");
        ("skills", JList [JStr "angular"; JStr "java"]) ]
  ∧ resume_tools._extract_skills "java angular" = ["java"; "angular"].
Proof. repeat split; vm_compute; reflexivity. Qed.

(** ** Instances of the theorems *)

Lemma score_is_rounded_overlap_ratio_witness :
  let resume_set : gset string := list_to_set (map lower ["Python"; "SQL"]) in
  let job_set : gset string :=
    list_to_set (map lower ["python"; "react"; "sql"]) in
  ∃ (result : dict) (score : float),
    match_tools.compute_match example_resume example_job
      = ok (json_dumps (Some 2) (JDict result))
    ∧ match_tools.match_result example_resume example_job = ok result
    ∧ dict_lookup "score" result = Some (JFloat score)
    ∧ (job_set ≠ ∅ →
       score = py_round (int_truediv (size (resume_set ∩ job_set))
                                     (size job_set)) 3)
    ∧ (job_set = ∅ → score = 0%float).
Proof.
  apply (score_is_rounded_overlap_ratio example_resume example_job
           ["Python"; "SQL"] ["python"; "react"; "sql"]);
    vm_compute; reflexivity.
Defined.

Lemma overlap_and_missing_partition_required_witness :
  ∃ (result : dict) (overlap missing : list string),
    match_tools.compute_match example_resume example_job
      = ok (json_dumps (Some 2) (JDict result))
    ∧ match_tools.match_result example_resume example_job = ok result
    ∧ dict_lookup "overlapping_skills" result = Some (JList (map JStr overlap))
    ∧ dict_lookup "missing_skills" result = Some (JList (map JStr missing))
    ∧ (∀ s, ¬ (s ∈ overlap ∧ s ∈ missing))
    ∧ (∀ s, s ∈ overlap ∨ s ∈ missing
            ↔ s ∈ map lower ["python"; "react"; "sql"])
    ∧ (∀ s, s ∈ overlap
            ↔ s ∈ map lower ["Python"; "SQL"]
              ∧ s ∈ map lower ["python"; "react"; "sql"])
    ∧ Sorted String.le overlap ∧ Sorted String.le missing
    ∧ NoDup overlap ∧ NoDup missing.
Proof.
  apply (overlap_and_missing_partition_required example_resume example_job
           ["Python"; "SQL"] ["python"; "react"; "sql"]);
    vm_compute; reflexivity.
Defined.

Lemma fallback_skills_own_vocabulary_sorted_witness :
  ∃ skills : list string,
    match_tools._ensure_resume_profile "java angular"
      = [ ("raw_text", JStr "java angular");
          ("skills", JList (map JStr skills)) ]
    ∧ match_tools._ensure_job_profile "java angular"
      = [ ("raw_text", JStr "java angular");
          ("required_skills", JList (map JStr skills)) ]
    ∧ (∀ s, s ∈ skills
            ↔ s ∈ match_tools._SKILL_VOCAB
              ∧ str_in s (lower "java angular") = true)
    ∧ NoDup skills
    ∧ Sorted String.le skills.
Proof.
  apply (fallback_skills_own_vocabulary_sorted "java angular").
  intros obj. vm_compute. discriminate.
Defined.

Lemma validate_match_output_idempotent_witness :
  (let* y := improved_tools.validate_match_output example_match in
   improved_tools.validate_match_output y)
  = improved_tools.validate_match_output example_match.
Proof.
  apply (validate_match_output_idempotent example_match).
  intros normalized Hn. vm_compute in Hn. injection Hn as <-.
  vm_compute. reflexivity.
Defined.

Lemma validator_score_coerced_and_clamped_witness :
  ∃ (data : dict) (score : float),
    improved_tools.loads_or_empty example_match = JDict data
    ∧ improved_tools.validate_match_output example_match
      = ok (json_dumps None (JDict example_normalized))
    ∧ dict_lookup "score" example_normalized = Some (JFloat score)
    ∧ score
      = py_max 0%float
          (py_min 1%float
             match py_float (dict_get "score" (JFloat 0%float) data) with
             | inr f => f
             | inl _ => 0%float
             end)
    ∧ PrimFloat.leb 0 score = true
    ∧ PrimFloat.leb score 1 = true.
Proof.
  apply (proj1 validator_score_coerced_and_clamped example_match
           example_normalized).
  vm_compute. reflexivity.
Defined.

Lemma validator_skill_lists_canonical_witness :
  ∃ overlapping missing : list string,
    improved_tools.validate_match_output example_match
      = ok (json_dumps None (JDict example_normalized))
    ∧ dict_lookup "overlapping_skills" example_normalized
      = Some (JList (map JStr overlapping))
    ∧ dict_lookup "missing_skills" example_normalized
      = Some (JList (map JStr missing))
    ∧ Forall (λ s, strip s = s ∧ lower s = s ∧ s ≠ "")
        (overlapping ++ missing)
    ∧ NoDup overlapping ∧ NoDup missing
    ∧ Sorted String.le overlapping ∧ Sorted String.le missing.
Proof.
  apply (proj1 validator_skill_lists_canonical example_match
           example_normalized).
  vm_compute. reflexivity.
Defined.

Lemma parse_json_propagates_decode_error_witness :
  json_tools.parse_json "" = raise JSONDecodeError
  ∧ improved_tools.loads_or_empty "" = JDict [].
Proof.
  apply (parse_json_propagates_decode_error "" JSONDecodeError).
  vm_compute. reflexivity.
Defined.

Lemma substring_entries_reported_together_witness :
  (∃ skills required : list string,
     dict_lookup "skills" (resume_tools.resume_profile example_text)
       = Some (JList (map JStr skills))
     ∧ dict_lookup "required_skills" (job_tools.job_profile example_text)
       = Some (JList (map JStr required))
     ∧ "spring" ∈ skills ∧ "spring boot" ∈ skills
     ∧ "spring" ∈ required ∧ "spring boot" ∈ required)
  ∧ (∃ skills required : list string,
       dict_lookup "skills" (resume_tools.resume_profile example_text)
         = Some (JList (map JStr skills))
       ∧ dict_lookup "required_skills" (job_tools.job_profile example_text)
         = Some (JList (map JStr required))
       ∧ "rest" ∈ skills ∧ "rest" ∈ required).
Proof.
  split.
  - apply (proj1 (substring_entries_reported_together example_text)).
    vm_compute. reflexivity.
  - apply (proj2 (substring_entries_reported_together example_text)).
    right. vm_compute. reflexivity.
Defined.

(** ** The scenarios of the specification, evaluated *)

Example example_match_result :
  match_tools.match_result example_resume example_job
  = ok [ ("score", JFloat 0.667%float);
         ("overlapping_skills", JList [JStr "python"; JStr "sql"]);
         ("missing_skills", JList [JStr "react"]);
         ("explanation",
          JStr "Matched 2 out of 3 required skills. Overlap: ['python', 'sql']. Missing: ['react'].") ].
Proof. vm_compute. reflexivity. Qed.

Example scenario_profiles :
  resume_tools.resume_profile scenario_resume_text
  = [ ("name", JStr "Jane Doe");
      ("skills", JList [JStr "python"; JStr "react"; JStr "sql"]);
      ("raw_text", JStr scenario_resume_text) ]
  ∧ job_tools.job_profile scenario_job_text
    = [ ("role_title", JStr "Backend Engineer");
        ("location", JStr "Remote");
        ("required_skills", JList [JStr "python"; JStr "sql"; JStr "kafka"]);
        ("raw_text", JStr scenario_job_text) ].
Proof. split; vm_compute; reflexivity. Qed.

Example scenario_pipeline :
  (let* match_json :=
     match_tools.compute_match
       (resume_tools.parse_resume scenario_resume_text)
       (job_tools.parse_job_description scenario_job_text) in
   let* validated := improved_tools.validate_match_output match_json in
   json_loads validated)
  = ok (JDict
          [ ("score", JFloat 0.667%float);
            ("overlapping_skills", JList [JStr "python"; JStr "sql"]);
            ("missing_skills", JList [JStr "kafka"]);
            ("explanation",
             JStr "Matched 2 out of 3 required skills. Overlap: ['python', 'sql']. Missing: ['kafka'].") ])
  ∧ (let* match_json :=
       match_tools.compute_match
         (resume_tools.parse_resume scenario_resume_text)
         (job_tools.parse_job_description scenario_job_text) in
     let* validated := improved_tools.validate_match_output match_json in
     let* email :=
       outreach_tools.draft_outreach_email
         (resume_tools.parse_resume scenario_resume_text)
         (job_tools.parse_job_description scenario_job_text) validated in
     ok (startswith email ("Subject: Interest in Backend Engineer" ++ nl)))
    = ok true.
Proof. split; vm_compute; reflexivity. Qed.

(** On raw text the match engine uses its own vocabulary, which has the
    one-letter entry c: both texts of the scenario contain that letter,
    and kafka is not recognised. *)
Example scenario_raw_text_match :
  match_tools.match_result scenario_resume_text scenario_job_text
  = ok [ ("score", JFloat 1%float);
         ("overlapping_skills", JList [JStr "c"; JStr "python"; JStr "sql"]);
         ("missing_skills", JList []);
         ("explanation",
          JStr "Matched 3 out of 3 required skills. Overlap: ['c', 'python', 'sql']. Missing: none.") ].
Proof. vm_compute. reflexivity. Qed.

(** The bucket boundaries of [explain_match]. *)
Example explain_match_buckets :
  let opening (score : float) (label : string) :=
    let* text :=
      improved_tools.explain_match "{}" "{}"
        (text_of (JDict [("score", JFloat score)])) in
    ok (startswith text
          ("Overall, the candidate appears to be a " ++ label ++ " match")) in
  opening 0.8%float "strong" = ok true
  ∧ opening 0.79999%float "moderate" = ok true
  ∧ opening 0.5%float "moderate" = ok true
  ∧ opening 0.49999%float "limited" = ok true.
Proof. repeat split; vm_compute; reflexivity. Qed.

(* ===================================================================== *)
(** * Further properties of the tools *)
(* ===================================================================== *)

(** ** Substrings *)

Lemma append_cons (c : ascii) (s t : string) :
  String c s ++ t = String c (s ++ t).
Proof. reflexivity. Qed.

Lemma append_assoc (s t u : string) : (s ++ t) ++ u = s ++ t ++ u.
Proof.
  induction s as [|c s IH]; [done|]. rewrite !append_cons. by f_equal.
Qed.

Lemma startswith_iff (s p : string) :
  startswith s p = true ↔ ∃ q, s = p ++ q.
Proof.
  revert s. induction p as [|a p IH]; intros s.
  - split; [|by destruct s]. intros _. by exists s.
  - destruct s as [|b s]; simpl.
    + split; [done|]. by intros [q ?].
    + rewrite andb_true_iff, IH, Ascii.eqb_eq. split.
      * intros [-> [q ->]]. by exists q.
      * intros [q [= -> ->]]. eauto.
Qed.

Lemma startswith_str_in (s p : string) :
  startswith s p = true → str_in p s = true.
Proof.
  destruct s; [by rewrite str_in_nil|]. rewrite str_in_cons. by intros ->.
Qed.

(** [sub in s] holds exactly when [s] is some text, then [sub], then some
    text. *)
Lemma str_in_iff (sub s : string) :
  str_in sub s = true ↔ ∃ a b, s = a ++ sub ++ b.
Proof.
  split.
  - induction s as [|c s IH].
    + rewrite str_in_nil. intros [q ->]%startswith_iff. by exists "", q.
    + rewrite str_in_cons. intros [Hs|Hs]%orb_prop.
      * apply startswith_iff in Hs as [q ->]. by exists "", q.
      * destruct (IH Hs) as (a & b & ->). by exists (String c a), b.
  - intros (a & b & ->). induction a as [|c a IH].
    + apply startswith_str_in, startswith_iff. by exists b.
    + rewrite append_cons, str_in_cons, IH. apply orb_true_r.
Qed.

Lemma str_in_trans (a b s : string) :
  str_in a b = true → str_in b s = true → str_in a s = true.
Proof.
  rewrite !str_in_iff. intros (p & q & ->) (p' & q' & ->).
  exists (p' ++ p), (q ++ q'). by rewrite !append_assoc.
Qed.

Lemma str_in_context (sub before s after : string) :
  str_in sub s = true → str_in sub (before ++ s ++ after) = true.
Proof.
  rewrite !str_in_iff. intros (p & q & ->).
  exists (before ++ p), (q ++ after). by rewrite !append_assoc.
Qed.

(** ** The text extractors *)

Lemma dedup_fold_fresh (found : list string) (seen : gset string)
    (result : list string) :
  NoDup found → (∀ s, s ∈ found → s ∉ seen) →
  (fold_left resume_tools.dedup_step found (seen, result)).2
  = (result ++ found)%list.
Proof.
  revert seen result.
  induction found as [|x found IH]; intros seen result Hnd Hfresh; simpl.
  - by rewrite app_nil_r.
  - apply NoDup_cons in Hnd as [Hx Hnd].
    assert (resume_tools.dedup_step (seen, result) x
            = ({[x]} ∪ seen, (result ++ [x])%list)) as ->.
    { unfold resume_tools.dedup_step. simpl.
      destruct (decide (x ∈ seen)) as [Hin|]; [|done].
      destruct (Hfresh x); [left|done]. }
    rewrite IH; [by rewrite <- app_assoc|done|].
    intros s Hs [->%elem_of_singleton|Hin]%elem_of_union; [done|].
    apply (Hfresh s); [by right|done].
Qed.

(** On a list without duplicates the loop keeps every element, in
    order. *)
Lemma dedup_NoDup_id (found : list string) :
  NoDup found → resume_tools.dedup found = found.
Proof.
  intros Hnd. unfold resume_tools.dedup.
  rewrite dedup_fold_fresh; [done|done|]. intros s _. set_solver.
Qed.

Lemma NoDup_found_in (vocabulary : list string) (text : string) :
  NoDup vocabulary → NoDup (resume_tools.found_in vocabulary text).
Proof.
  intros Hnd. unfold resume_tools.found_in.
  induction Hnd as [|x l Hx Hnd IH]; simpl; [constructor|].
  destruct (str_in x text); [|done]. constructor; [|done].
  rewrite list_elem_of_In, filter_In, <- list_elem_of_In. tauto.
Qed.

Lemma sublist_found_in (vocabulary : list string) (text : string) :
  resume_tools.found_in vocabulary text `sublist_of` vocabulary.
Proof.
  unfold resume_tools.found_in.
  induction vocabulary as [|x l IH]; simpl; [constructor|].
  destruct (str_in x text); by constructor.
Qed.

Lemma NoDup_by_nodup (l : list string) : nodup string_dec l = l → NoDup l.
Proof. intros <-. apply NoDup_ListNoDup, List.NoDup_nodup. Qed.

Lemma NoDup_COMMON_SKILLS :
  NoDup resume_tools.COMMON_SKILLS ∧ NoDup job_tools.COMMON_SKILLS.
Proof. split; apply NoDup_by_nodup; vm_compute; reflexivity. Qed.

(** X1. Both text extractors return the vocabulary entries that occur in
    the lower-cased text, in the order of the vocabulary and each once:
    since no entry of [COMMON_SKILLS] is repeated, the loop that removes
    duplicates never removes anything. *)
Theorem extractors_keep_vocabulary_order (text : string) :
  resume_tools._extract_skills text
    = List.filter (λ skill, str_in skill (lower text))
        resume_tools.COMMON_SKILLS
  ∧ job_tools._extract_required_skills text
    = List.filter (λ skill, str_in skill (lower text))
        job_tools.COMMON_SKILLS
  ∧ resume_tools._extract_skills text `sublist_of` resume_tools.COMMON_SKILLS
  ∧ job_tools._extract_required_skills text
      `sublist_of` job_tools.COMMON_SKILLS
  ∧ resume_tools._extract_skills text
    = job_tools._extract_required_skills text.
Proof.
  destruct NoDup_COMMON_SKILLS as [Hr Hj].
  unfold resume_tools._extract_skills, job_tools._extract_required_skills.
  rewrite !dedup_NoDup_id by by apply NoDup_found_in.
  repeat split; auto using sublist_found_in.
Qed.

(** X2. Text around a text never hides a skill: whatever either text
    extractor or the fallback extractor of [match_tools] finds in a
    text, it still finds when more text is put before and after it. *)
Theorem extractors_monotone_in_text (before text after skill : string) :
  (skill ∈ resume_tools._extract_skills text →
   skill ∈ resume_tools._extract_skills (before ++ text ++ after))
  ∧ (skill ∈ job_tools._extract_required_skills text →
     skill ∈ job_tools._extract_required_skills (before ++ text ++ after))
  ∧ (skill ∈ match_tools._extract_skills_from_text text →
     skill ∈ match_tools._extract_skills_from_text
               (before ++ text ++ after)).
Proof.
  split; [|split].
  - rewrite !elem_of_extract_skills, !lower_app.
    intros [Hv Hin]. split; [done|]. by apply str_in_context.
  - rewrite !elem_of_extract_required_skills, !lower_app.
    intros [Hv Hin]. split; [done|]. by apply str_in_context.
  - rewrite !elem_of_extract_skills_from_text, !lower_app.
    intros [Hv Hin]. split; [done|]. by apply str_in_context.
Qed.

(** X3. The reported skills are closed under the entries of the
    vocabulary that occur inside other entries: when an extractor reports
    an entry, it reports every entry of its vocabulary that is a
    substring of it (java with javascript; in [match_tools] also sql with
    mysql and the one-letter entry c with css, docker or react). *)
Theorem extractors_report_contained_entries (text inner outer : string) :
  str_in inner outer = true →
  (inner ∈ resume_tools.COMMON_SKILLS →
   outer ∈ resume_tools._extract_skills text →
   inner ∈ resume_tools._extract_skills text)
  ∧ (inner ∈ job_tools.COMMON_SKILLS →
     outer ∈ job_tools._extract_required_skills text →
     inner ∈ job_tools._extract_required_skills text)
  ∧ (inner ∈ match_tools._SKILL_VOCAB →
     outer ∈ match_tools._extract_skills_from_text text →
     inner ∈ match_tools._extract_skills_from_text text).
Proof.
  intros Hsub. split; [|split].
  - rewrite !elem_of_extract_skills.
    intros Hv [_ Hin]. split; [done|]. by apply (str_in_trans _ outer).
  - rewrite !elem_of_extract_required_skills.
    intros Hv [_ Hin]. split; [done|]. by apply (str_in_trans _ outer).
  - rewrite !elem_of_extract_skills_from_text.
    intros Hv [_ Hin]. split; [done|]. by apply (str_in_trans _ outer).
Qed.

Lemma extractors_monotone_in_text_witness :
  "python" ∈ resume_tools._extract_skills ("Senior " ++ "Python" ++ " dev")
  ∧ "python" ∈ job_tools._extract_required_skills
                 ("Senior " ++ "Python" ++ " dev")
  ∧ "python" ∈ match_tools._extract_skills_from_text
                 ("Senior " ++ "Python" ++ " dev").
Proof.
  destruct (extractors_monotone_in_text "Senior " "Python" " dev" "python")
    as (H1 & H2 & H3).
  split; [|split]; [apply H1|apply H2|apply H3];
    apply list_elem_of_In; vm_compute; tauto.
Defined.

Lemma extractors_report_contained_entries_witness :
  "java" ∈ resume_tools._extract_skills "JavaScript developer"
  ∧ "java" ∈ job_tools._extract_required_skills "JavaScript developer"
  ∧ "java" ∈ match_tools._extract_skills_from_text "JavaScript developer".
Proof.
  destruct (extractors_report_contained_entries "JavaScript developer"
              "java" "javascript" eq_refl) as (H1 & H2 & H3).
  split; [|split]; [apply H1|apply H2|apply H3];
    apply list_elem_of_In; vm_compute; tauto.
Defined.

(** ** Names and titles: the first non-blank line *)

Lemma all_chars_app (p : ascii → bool) (s t : string) :
  all_chars p (s ++ t) = all_chars p s && all_chars p t.
Proof.
  induction s as [|c s IH]; [done|].
  rewrite append_cons. simpl. by rewrite IH, andb_assoc.
Qed.

Lemma lstrip_blank (s : string) : all_chars is_space s = true → lstrip s = "".
Proof.
  induction s as [|c s IH]; simpl; [done|].
  intros [-> Hs]%andb_prop. auto.
Qed.

Lemma strip_blank (s : string) : all_chars is_space s = true → strip s = "".
Proof. intros Hs. unfold strip. by rewrite lstrip_blank. Qed.

(** What the loop over the lines returns: the first line that is not
    blank, trimmed, or the default when every line is blank. *)
Lemma first_nonblank_spec (lines : list string) (default : string) :
  (Forall (λ line, strip line = "") lines
   ∧ resume_tools.first_nonblank lines default = default)
  ∨ ∃ before line after,
      lines = (before ++ line :: after)%list
      ∧ Forall (λ line, strip line = "") before
      ∧ strip line ≠ ""
      ∧ resume_tools.first_nonblank lines default = strip line.
Proof.
  induction lines as [|line lines IH]; simpl.
  - left. by split.
  - destruct (String.eqb_spec (strip line) "") as [Hb|Hb]; simpl.
    + destruct IH as [[Hall Hd]|(before & l & after & -> & Hpre & Hl & Hr)].
      * left. split; [by constructor|done].
      * right. exists (line :: before), l, after.
        split; [done|]. split; [by constructor|done].
    + right. exists [], line, lines. by repeat split.
Qed.

(** The lines of a text hold only characters of the text. *)
Lemma splitlines_go_chars (p : ascii → bool) (n : nat) (cur s : string) :
  (String.length s ≤ n)%nat →
  all_chars p cur = true → all_chars p s = true →
  Forall (λ line, all_chars p line = true) (splitlines_go cur s).
Proof.
  revert cur s. induction n as [|n IH]; intros cur s Hlen Hcur Hs.
  - destruct s; [|simpl in Hlen; lia]. simpl.
    destruct (String.eqb cur ""); by repeat constructor.
  - destruct s as [|c s]; simpl.
    { destruct (String.eqb cur ""); by repeat constructor. }
    simpl in Hlen, Hs. apply andb_prop in Hs as [Hc Hs].
    destruct (is_linebreak c).
    + destruct s as [|c' s']; [by repeat constructor|].
      simpl in Hlen, Hs. apply andb_prop in Hs as [Hc' Hs'].
      destruct ((code c =? 13)%N && (code c' =? 10)%N).
      * constructor; [done|]. apply IH; [lia|done|done].
      * constructor; [done|]. apply IH; [simpl; lia|done|].
        simpl. by rewrite Hc', Hs'.
    + apply IH; [lia| |done].
      rewrite all_chars_app. simpl. by rewrite Hcur, Hc.
Qed.

(** A text without a line boundary is its own single line. *)
Lemma splitlines_go_one_line (cur s : string) :
  all_chars (λ c, negb (is_linebreak c)) s = true →
  splitlines_go cur s = if String.eqb (cur ++ s) "" then [] else [cur ++ s].
Proof.
  revert cur. induction s as [|c s IH]; intros cur; simpl.
  - intros _. assert (cur ++ "" = cur) as ->; [|done].
    clear. induction cur as [|c cur IH]; [done|].
    rewrite append_cons. by f_equal.
  - intros [Hc Hs]%andb_prop. apply negb_true_iff in Hc as ->.
    rewrite IH by done. by rewrite append_assoc.
Qed.

(** X4. The name [_extract_name] returns is never empty and never has
    blanks at its ends: it is the first line of the text that is not
    blank, trimmed, and the sentinel when every line is blank. In
    particular a text of blanks gives the sentinel, and a non-blank text
    of one line gives that line trimmed. The title fallback of
    [_extract_role_title] is the same loop with its own sentinel. *)
Theorem extract_name_first_nonblank_line (resume_text : string) :
  let name := resume_tools._extract_name resume_text in
  name ≠ ""
  ∧ strip name = name
  ∧ ((Forall (λ line, strip line = "") (splitlines resume_text)
      ∧ name = "Unknown Candidate")
     ∨ ∃ before line after,
         splitlines resume_text = (before ++ line :: after)%list
         ∧ Forall (λ line, strip line = "") before
         ∧ strip line ≠ ""
         ∧ name = strip line)
  ∧ (all_chars is_space resume_text = true → name = "Unknown Candidate")
  ∧ (all_chars (λ c, negb (is_linebreak c)) resume_text = true →
     strip resume_text ≠ "" → name = strip resume_text).
Proof.
  unfold resume_tools._extract_name.
  pose proof (first_nonblank_spec (splitlines resume_text)
                "Unknown Candidate") as Hspec.
  split; [|split; [|split; [|split]]].
  - destruct Hspec as [[_ ->]|(b & l & a & _ & _ & Hl & ->)]; done.
  - destruct Hspec as [[_ ->]|(b & l & a & _ & _ & Hl & ->)];
      [reflexivity|apply strip_idem].
  - exact Hspec.
  - intros Hblank.
    destruct Hspec as [[_ ->]|(b & l & a & Hlines & _ & Hl & _)]; [done|].
    pose proof (splitlines_go_chars is_space _ "" resume_text
                  (le_n _) eq_refl Hblank) as Hall.
    fold (splitlines resume_text) in Hall. rewrite Hlines in Hall.
    apply Forall_app in Hall as [_ Hall]. apply Forall_cons in Hall as [Hb _].
    by apply strip_blank in Hb.
  - intros Hone Hne. unfold splitlines.
    rewrite splitlines_go_one_line by done.
    change ("" ++ resume_text) with resume_text.
    destruct (String.eqb_spec resume_text "") as [->|_]; [done|].
    simpl. by apply String.eqb_neq in Hne as ->.
Qed.

Lemma extract_name_first_nonblank_line_witness :
  resume_tools._extract_name "     " = "Unknown Candidate"
  ∧ resume_tools._extract_name "  Jane Doe " = strip "  Jane Doe ".
Proof.
  split.
  - pose proof (extract_name_first_nonblank_line "     ")
      as (_ & _ & _ & Hblank & _).
    apply Hblank. vm_compute. reflexivity.
  - pose proof (extract_name_first_nonblank_line "  Jane Doe ")
      as (_ & _ & _ & _ & Hone).
    apply Hone; vm_compute; [reflexivity|discriminate].
Defined.

(** ** The labelled lines of a job description *)





(** ** The match engine on its three kinds of input *)

Lemma map_fixed_elem {A} (f : A → A) (l : list A) (x : A) :
  map f l = l → x ∈ l → f x = x.
Proof.
  induction l as [|y l IH]; simpl; [by intros _ ?%elem_of_nil|].
  intros [= Hy Hl] [->|Hin]%elem_of_cons; auto.
Qed.

Lemma map_fixed_sub {A} (f : A → A) (vocabulary l : list A) :
  map f vocabulary = vocabulary → (∀ x, x ∈ l → x ∈ vocabulary) →
  map f l = l.
Proof.
  intros Hv Hsub. induction l as [|y l IH]; simpl; [done|].
  rewrite (map_fixed_elem f vocabulary y Hv), IH; [done| |].
  - intros x Hx. apply Hsub. by right.
  - apply Hsub. by left.
Qed.

(** Every entry of the three vocabularies is in lower case. *)
Lemma vocabularies_lower_case :
  map lower resume_tools.COMMON_SKILLS = resume_tools.COMMON_SKILLS
  ∧ map lower job_tools.COMMON_SKILLS = job_tools.COMMON_SKILLS
  ∧ map lower match_tools._SKILL_VOCAB = match_tools._SKILL_VOCAB.
Proof. repeat split; vm_compute; reflexivity. Qed.

Lemma lower_extract_skills (text : string) :
  map lower (resume_tools._extract_skills text)
  = resume_tools._extract_skills text.
Proof.
  apply (map_fixed_sub _ resume_tools.COMMON_SKILLS);
    [apply vocabularies_lower_case|].
  by intros x [? _]%elem_of_extract_skills.
Qed.

Lemma lower_extract_required_skills (text : string) :
  map lower (job_tools._extract_required_skills text)
  = job_tools._extract_required_skills text.
Proof.
  apply (map_fixed_sub _ job_tools.COMMON_SKILLS);
    [apply vocabularies_lower_case|].
  by intros x [? _]%elem_of_extract_required_skills.
Qed.

Lemma lower_extract_skills_from_text (text : string) :
  map lower (match_tools._extract_skills_from_text text)
  = match_tools._extract_skills_from_text text.
Proof.
  apply (map_fixed_sub _ match_tools._SKILL_VOCAB);
    [apply vocabularies_lower_case|].
  by intros x [? _]%elem_of_extract_skills_from_text.
Qed.

Lemma not_true_iff_false_eq (b : bool) : b ≠ true ↔ b = false.
Proof. destruct b; split; congruence. Qed.

(** X6. On two plain texts (neither decodes to a JSON mapping)
    [compute_match] never raises: the overlap is exactly the entries of
    [_SKILL_VOCAB] that occur in both lower-cased texts, and the missing
    skills are those that occur in the job text and not in the resume
    text. *)
Theorem compute_match_on_plain_text `{Runtime}
    (resume_text job_text : string) :
  (∀ obj, json_loads resume_text ≠ inr (JDict obj)) →
  (∀ obj, json_loads job_text ≠ inr (JDict obj)) →
  ∃ (result : dict) (overlap missing : list string),
    match_tools.compute_match resume_text job_text
      = ok (json_dumps (Some 2) (JDict result))
    ∧ dict_lookup "overlapping_skills" result = Some (JList (map JStr overlap))
    ∧ dict_lookup "missing_skills" result = Some (JList (map JStr missing))
    ∧ (∀ s, s ∈ overlap
            ↔ s ∈ match_tools._SKILL_VOCAB
              ∧ str_in s (lower resume_text) = true
              ∧ str_in s (lower job_text) = true)
    ∧ (∀ s, s ∈ missing
            ↔ s ∈ match_tools._SKILL_VOCAB
              ∧ str_in s (lower job_text) = true
              ∧ str_in s (lower resume_text) = false).
Proof.
  intros Hr Hj.
  destruct (ensure_profile_fallback resume_text Hr) as [Er _].
  destruct (ensure_profile_fallback job_text Hj) as [_ Ej].
  destruct (match_result_strings resume_text job_text
              (match_tools._extract_skills_from_text resume_text)
              (match_tools._extract_skills_from_text job_text))
    as [explanation Hres]; [by rewrite Er|by rewrite Ej|].
  rewrite (lower_extract_skills_from_text resume_text),
    (lower_extract_skills_from_text job_text) in Hres.
  eexists _, _, _. unfold match_tools.compute_match. rewrite Hres. simpl.
  split; [reflexivity|]. split; [reflexivity|]. split; [reflexivity|].
  split; intros s.
  - rewrite elem_of_py_sorted, elem_of_intersection, !elem_of_list_to_set,
      !elem_of_extract_skills_from_text. tauto.
  - rewrite elem_of_py_sorted, elem_of_difference, !elem_of_list_to_set,
      !elem_of_extract_skills_from_text, <- not_true_iff_false_eq. tauto.
Qed.

(** X9. On the two profiles that [parse_resume] and
    [parse_job_description] wrote, [compute_match] never raises: the
    overlap is exactly the entries of [COMMON_SKILLS] that occur in both
    lower-cased source texts, the missing skills those that occur in the
    job text and not in the resume text. The assumption is that
    [json.loads] reads the two profiles back. *)
Theorem compute_match_on_parsed_profiles `{Runtime}
    (resume_text job_text : string) :
  json_loads (resume_tools.parse_resume resume_text)
    = ok (JDict (resume_tools.resume_profile resume_text)) →
  json_loads (job_tools.parse_job_description job_text)
    = ok (JDict (job_tools.job_profile job_text)) →
  ∃ (result : dict) (overlap missing : list string),
    match_tools.compute_match (resume_tools.parse_resume resume_text)
      (job_tools.parse_job_description job_text)
      = ok (json_dumps (Some 2) (JDict result))
    ∧ dict_lookup "overlapping_skills" result = Some (JList (map JStr overlap))
    ∧ dict_lookup "missing_skills" result = Some (JList (map JStr missing))
    ∧ (∀ s, s ∈ overlap
            ↔ s ∈ resume_tools.COMMON_SKILLS
              ∧ str_in s (lower resume_text) = true
              ∧ str_in s (lower job_text) = true)
    ∧ (∀ s, s ∈ missing
            ↔ s ∈ job_tools.COMMON_SKILLS
              ∧ str_in s (lower job_text) = true
              ∧ str_in s (lower resume_text) = false).
Proof.
  intros Hr Hj.
  destruct (match_result_strings (resume_tools.parse_resume resume_text)
              (job_tools.parse_job_description job_text)
              (resume_tools._extract_skills resume_text)
              (job_tools._extract_required_skills job_text))
    as [explanation Hres].
  { unfold match_tools._ensure_resume_profile. by rewrite Hr. }
  { unfold match_tools._ensure_job_profile. by rewrite Hj. }
  rewrite (lower_extract_skills resume_text),
    (lower_extract_required_skills job_text) in Hres.
  eexists _, _, _. unfold match_tools.compute_match. rewrite Hres. simpl.
  split; [reflexivity|]. split; [reflexivity|]. split; [reflexivity|].
  split; intros s.
  - rewrite elem_of_py_sorted, elem_of_intersection, !elem_of_list_to_set,
      elem_of_extract_skills, elem_of_extract_required_skills.
    change job_tools.COMMON_SKILLS with resume_tools.COMMON_SKILLS. tauto.
  - rewrite elem_of_py_sorted, elem_of_difference, !elem_of_list_to_set,
      elem_of_extract_skills, elem_of_extract_required_skills,
      <- not_true_iff_false_eq.
    change resume_tools.COMMON_SKILLS with job_tools.COMMON_SKILLS. tauto.
Qed.

Lemma compute_match_on_plain_text_witness :
  ∃ (result : dict) (overlap missing : list string),
    match_tools.compute_match scenario_resume_text scenario_job_text
      = ok (json_dumps (Some 2) (JDict result))
    ∧ dict_lookup "overlapping_skills" result = Some (JList (map JStr overlap))
    ∧ dict_lookup "missing_skills" result = Some (JList (map JStr missing))
    ∧ (∀ s, s ∈ overlap
            ↔ s ∈ match_tools._SKILL_VOCAB
              ∧ str_in s (lower scenario_resume_text) = true
              ∧ str_in s (lower scenario_job_text) = true)
    ∧ (∀ s, s ∈ missing
            ↔ s ∈ match_tools._SKILL_VOCAB
              ∧ str_in s (lower scenario_job_text) = true
              ∧ str_in s (lower scenario_resume_text) = false).
Proof.
  apply (compute_match_on_plain_text scenario_resume_text scenario_job_text);
    intros obj; vm_compute; discriminate.
Defined.

Lemma compute_match_on_parsed_profiles_witness :
  ∃ (result : dict) (overlap missing : list string),
    match_tools.compute_match (resume_tools.parse_resume scenario_resume_text)
      (job_tools.parse_job_description scenario_job_text)
      = ok (json_dumps (Some 2) (JDict result))
    ∧ dict_lookup "overlapping_skills" result = Some (JList (map JStr overlap))
    ∧ dict_lookup "missing_skills" result = Some (JList (map JStr missing))
    ∧ (∀ s, s ∈ overlap
            ↔ s ∈ resume_tools.COMMON_SKILLS
              ∧ str_in s (lower scenario_resume_text) = true
              ∧ str_in s (lower scenario_job_text) = true)
    ∧ (∀ s, s ∈ missing
            ↔ s ∈ job_tools.COMMON_SKILLS
              ∧ str_in s (lower scenario_job_text) = true
              ∧ str_in s (lower scenario_resume_text) = false).
Proof.
  apply (compute_match_on_parsed_profiles scenario_resume_text
           scenario_job_text); vm_compute; reflexivity.
Defined.



Lemma ensure_profile_mapping `{Runtime} (value : string) (obj : dict) :
  json_loads value = ok (JDict obj) →
  match_tools._ensure_resume_profile value = obj
  ∧ match_tools._ensure_job_profile value = obj.
Proof.
  intros Hv.
  unfold match_tools._ensure_resume_profile, match_tools._ensure_job_profile.
  by rewrite Hv.
Qed.

Lemma mapM_call_lower_raises (items : list value) :
  Exists (λ v, ∀ s, v ≠ JStr s) items →
  mapM call_lower items = raise AttributeError.
Proof.
  induction items as [|v items IH]; intros Hex; [by inversion Hex|].
  simpl. destruct v; try reflexivity.
  apply Exists_cons in Hex as [Hv|Hex]; [by destruct (Hv s)|].
  by rewrite (IH Hex).
Qed.

(** X7. A resume mapping whose skills field is null, a boolean or a
    number makes [compute_match] raise [TypeError], and a skills list
    with an element that is not a string makes it raise
    [AttributeError], whatever the job profile is: the engine is not
    total on JSON mappings. *)
Theorem compute_match_raises_on_ill_typed_skills `{Runtime}
    (resume_json job_json : string) (profile : dict) :
  json_loads resume_json = ok (JDict profile) →
  (∀ field,
     dict_lookup "skills" profile = Some field →
     (field = JNull ∨ (∃ b, field = JBool b) ∨ (∃ z, field = JInt z)
      ∨ ∃ f, field = JFloat f) →
     match_tools.compute_match resume_json job_json = raise TypeError)
  ∧ (∀ items,
       dict_lookup "skills" profile = Some (JList items) →
       Exists (λ v, ∀ s, v ≠ JStr s) items →
       match_tools.compute_match resume_json job_json
       = raise AttributeError).
Proof.
  intros Hr. apply ensure_profile_mapping in Hr as [Hr _].
  unfold match_tools.compute_match, match_tools.match_result, dict_get.
  rewrite Hr. split.
  - intros field -> [->|[[b ->]|[[z ->]|[f ->]]]]; reflexivity.
  - intros items -> Hex. unfold match_tools.lowered. simpl.
    by rewrite (mapM_call_lower_raises items Hex).
Qed.

Lemma compute_match_raises_on_ill_typed_skills_witness :
  match_tools.compute_match (text_of (JDict [("skills", JNull)])) example_job
    = raise TypeError
  ∧ match_tools.compute_match
      (text_of (JDict [("skills", JList [JStr "python"; JInt 3])]))
      example_job
    = raise AttributeError.
Proof.
  split.
  - pose proof (compute_match_raises_on_ill_typed_skills
                  (text_of (JDict [("skills", JNull)])) example_job
                  [("skills", JNull)] eq_refl) as [Hnull _].
    apply (Hnull JNull eq_refl). by left.
  - pose proof (compute_match_raises_on_ill_typed_skills
                  (text_of (JDict [("skills", JList [JStr "python"; JInt 3])]))
                  example_job
                  [("skills", JList [JStr "python"; JInt 3])] eq_refl)
      as [_ Hlist].
    apply (Hlist [JStr "python"; JInt 3] eq_refl).
    apply Exists_cons_tl, Exists_cons_hd. done.
Defined.

(** ** The validator: outcomes and canonical form *)

Lemma py_iter_error (v : value) (e : exn) :
  py_iter v = raise e → e = TypeError.
Proof. destruct v; cbv [py_iter raise ok]; congruence. Qed.

(** X10. The three outcomes of [validate_match_output]. It raises
    [AttributeError] when the input decodes to JSON that is not a
    mapping; it raises [TypeError] when the input is a mapping and one of
    the two skill fields, after [or []], cannot be iterated (a non-zero
    number or true); in every other case, also for input that is not
    JSON at all, it returns. *)
Theorem validate_match_output_outcomes `{Runtime} (match_json_str : string) :
  ((∀ d, improved_tools.loads_or_empty match_json_str ≠ JDict d) →
   improved_tools.validate_match_output match_json_str
   = raise AttributeError)
  ∧ ∀ d,
      improved_tools.loads_or_empty match_json_str = JDict d →
      let overlapping :=
        py_or (dict_get "overlapping_skills" (JList []) d) (JList []) in
      let missing :=
        py_or (dict_get "missing_skills" (JList []) d) (JList []) in
      ((∃ e, py_iter overlapping = raise e) ∨ (∃ e, py_iter missing = raise e) →
       improved_tools.validate_match_output match_json_str = raise TypeError)
      ∧ ((∃ items, py_iter overlapping = ok items) →
         (∃ items, py_iter missing = ok items) →
         ∃ out, improved_tools.validate_match_output match_json_str = ok out).
Proof.
  split.
  - intros Hnot.
    unfold improved_tools.validate_match_output, improved_tools.normalize,
      call_get.
    destruct (improved_tools.loads_or_empty match_json_str); try reflexivity.
    by destruct (Hnot d).
  - intros d Hd overlapping missing.
    unfold improved_tools.validate_match_output, improved_tools.normalize,
      call_get, improved_tools.clean_skills.
    rewrite Hd. simpl. fold overlapping missing. split.
    + intros Herr.
      destruct (py_iter overlapping) as [e|items] eqn:Eo; simpl.
      { by rewrite (py_iter_error _ _ Eo). }
      destruct Herr as [[e He]|[e He]]; [done|].
      rewrite He. simpl. by rewrite (py_iter_error _ _ He).
    + intros [io ->] [im ->]. simpl. eauto.
Qed.

Lemma validate_match_output_outcomes_witness :
  improved_tools.validate_match_output "[1, 2]" = raise AttributeError
  ∧ improved_tools.validate_match_output
      (text_of (JDict [("missing_skills", JInt 7)]))
    = raise TypeError
  ∧ ∃ out, improved_tools.validate_match_output example_match = ok out.
Proof.
  split; [|split].
  - apply (proj1 (validate_match_output_outcomes "[1, 2]")).
    intros d. vm_compute. discriminate.
  - apply (proj2 (validate_match_output_outcomes
                    (text_of (JDict [("missing_skills", JInt 7)])))
             [("missing_skills", JInt 7)]).
    + vm_compute. reflexivity.
    + right. exists TypeError. reflexivity.
  - apply (proj2 (validate_match_output_outcomes example_match)
             [("score", JFloat 1.5%float);
              ("overlapping_skills",
               JList [JStr "Python"; JStr "python"; JStr " SQL "])]).
    + vm_compute. reflexivity.
    + eexists. reflexivity.
    + eexists. reflexivity.
Defined.

(** X11. Input that is not JSON is treated as the empty mapping: both
    give the default result, score 0.0, two empty lists and an empty
    explanation. *)
Theorem validate_match_output_default `{Runtime} (match_json_str : string) :
  (∃ e, json_loads match_json_str = raise e)
  ∨ json_loads match_json_str = ok (JDict []) →
  improved_tools.validate_match_output match_json_str
  = ok (json_dumps None (JDict default_match)).
Proof.
  unfold improved_tools.validate_match_output, improved_tools.loads_or_empty.
  intros [[e ->]| ->]; reflexivity.
Qed.

Lemma validate_match_output_default_witness :
  improved_tools.validate_match_output "score: high"
  = ok (json_dumps None (JDict default_match)).
Proof.
  apply (validate_match_output_default "score: high").
  left. exists JSONDecodeError. vm_compute. reflexivity.
Defined.

(** The skills a field cleans to, before they are put in a set. *)
Lemma elem_of_cleaned `{Runtime} (items : list value) (x : string) :
  x ∈ map (λ s, lower (strip (py_str s)))
        (List.filter (λ s, negb (String.eqb (strip (py_str s)) "")) items)
  ↔ ∃ v, v ∈ items ∧ strip (py_str v) ≠ "" ∧ x = lower (strip (py_str v)).
Proof.
  rewrite list_elem_of_In, in_map_iff. split.
  - intros (v & <- & [Hv Hne]%filter_In).
    exists v. rewrite list_elem_of_In.
    apply negb_true_iff, String.eqb_neq in Hne. done.
  - intros (v & Hv & Hne & ->). exists v. split; [done|].
    apply filter_In. rewrite <- list_elem_of_In. split; [done|].
    by apply negb_true_iff, String.eqb_neq.
Qed.

Lemma clean_skills_ext `{Runtime} (l1 l2 : list value) :
  (∀ x, (∃ v, v ∈ l1 ∧ strip (py_str v) ≠ "" ∧ x = lower (strip (py_str v)))
        ↔ ∃ v, v ∈ l2 ∧ strip (py_str v) ≠ ""
                ∧ x = lower (strip (py_str v))) →
  improved_tools.clean_skills (JList l1) = improved_tools.clean_skills (JList l2).
Proof.
  intros Hext. unfold improved_tools.clean_skills. simpl. do 2 f_equal.
  apply set_eq. intros x. by rewrite !elem_of_list_to_set, !elem_of_cleaned.
Qed.

Lemma lower_empty (s : string) : lower s = "" → s = "".
Proof. by destruct s. Qed.

(** X12. The cleaned skill list of the validator depends only on which
    entries the input list holds: two lists with the same entries, in
    whatever order and however often each is repeated, clean to the same
    list (so a permuted list, a list with an entry repeated and a list
    written twice clean like the list itself). Nor does it depend on
    letter case or on blanks around an entry, and blank entries are
    dropped. *)
Theorem validator_skills_canonical_form `{Runtime} :
  (∀ l1 l2 : list value,
     (∀ v, v ∈ l1 ↔ v ∈ l2) →
     improved_tools.clean_skills (JList l1)
     = improved_tools.clean_skills (JList l2))
  ∧ (∀ l1 l2 : list value,
       l1 ≡ₚ l2 →
       improved_tools.clean_skills (JList l1)
       = improved_tools.clean_skills (JList l2))
  ∧ (∀ (v : value) (l : list value),
       v ∈ l →
       improved_tools.clean_skills (JList (v :: l))
       = improved_tools.clean_skills (JList l))
  ∧ (∀ l : list value,
       improved_tools.clean_skills (JList (l ++ l))
       = improved_tools.clean_skills (JList l))
  ∧ (∀ l : list string,
       improved_tools.clean_skills (JList (map JStr (map lower l)))
       = improved_tools.clean_skills (JList (map JStr l)))
  ∧ (∀ l : list string,
       improved_tools.clean_skills (JList (map JStr (map strip l)))
       = improved_tools.clean_skills (JList (map JStr l)))
  ∧ (∀ (s : string) (l : list value),
       strip s = "" →
       improved_tools.clean_skills (JList (JStr s :: l))
       = improved_tools.clean_skills (JList l)).
Proof.
  assert (∀ l1 l2 : list value,
            (∀ v, v ∈ l1 ↔ v ∈ l2) →
            improved_tools.clean_skills (JList l1)
            = improved_tools.clean_skills (JList l2)) as Hsame.
  { intros l1 l2 Hsame. apply clean_skills_ext. intros x.
    split; intros (v & Hv & ?); exists v; (split; [by apply Hsame|done]). }
  split; [exact Hsame|]. split; [|split; [|split; [|split; [|split]]]].
  - intros l1 l2 Hp. apply Hsame. intros v. by rewrite Hp.
  - intros v l Hv. apply Hsame. intros v'. rewrite elem_of_cons.
    split; [intros [->|Hv']; done|by right].
  - intros l. apply clean_skills_ext. intros x.
    split; intros (v & Hv & ?); exists v; split; try done.
    + apply elem_of_app in Hv. tauto.
    + apply elem_of_app. tauto.
  - intros l. apply clean_skills_ext. intros x. split.
    + intros (v & Hv & Hne & ->).
      apply list_elem_of_In, in_map_iff in Hv as (t & <- & Ht).
      apply in_map_iff in Ht as (s & <- & Hs). exists (JStr s).
      split; [apply list_elem_of_In, in_map; done|]. simpl in *.
      rewrite strip_lower in *. rewrite lower_idem. split; [|done].
      intros Hs'. apply Hne. by rewrite Hs'.
    + intros (v & Hv & Hne & ->).
      apply list_elem_of_In, in_map_iff in Hv as (s & <- & Hs).
      exists (JStr (lower s)).
      split; [by apply list_elem_of_In, in_map, in_map|]. simpl in *.
      rewrite strip_lower, lower_idem. split; [|done].
      intros Hs'. by apply Hne, lower_empty.
  - intros l. apply clean_skills_ext. intros x. split.
    + intros (v & Hv & Hne & ->).
      apply list_elem_of_In, in_map_iff in Hv as (t & <- & Ht).
      apply in_map_iff in Ht as (s & <- & Hs). exists (JStr s).
      split; [apply list_elem_of_In, in_map; done|]. simpl in *.
      by rewrite strip_idem in *.
    + intros (v & Hv & Hne & ->).
      apply list_elem_of_In, in_map_iff in Hv as (s & <- & Hs).
      exists (JStr (strip s)).
      split; [by apply list_elem_of_In, in_map, in_map|]. simpl in *.
      by rewrite strip_idem.
  - intros s l Hs. apply clean_skills_ext. intros x. split.
    + intros (v & [->|Hv]%elem_of_cons & Hne & ->); [done|]. by exists v.
    + intros (v & Hv & ?). exists v. split; [by right|done].
Qed.

Lemma validator_skills_canonical_form_witness :
  improved_tools.clean_skills (JList [JStr "sql"; JStr "Python"])
  = improved_tools.clean_skills (JList [JStr "Python"; JStr "sql"])
  ∧ improved_tools.clean_skills (JList [JStr "sql"; JStr "sql"; JStr "Python"])
    = improved_tools.clean_skills (JList [JStr "sql"; JStr "Python"])
  ∧ improved_tools.clean_skills (JList [JStr "   "; JStr "sql"])
    = improved_tools.clean_skills (JList [JStr "sql"]).
Proof.
  pose proof validator_skills_canonical_form
    as (_ & Hperm & Hrepeat & _ & _ & _ & Hblank).
  split; [|split].
  - apply Hperm. apply perm_swap.
  - apply Hrepeat. apply list_elem_of_In. vm_compute. tauto.
  - apply Hblank. vm_compute. reflexivity.
Defined.

(** ** The validator after the match engine *)

Lemma score_table (n k : nat) :
  (n ≤ 32)%nat → (k ≤ n)%nat →
  let score := py_round (int_truediv k n) 3 in
  clamp score = score
  ∧ PrimFloat.leb 0 score = true ∧ PrimFloat.leb score 1 = true
  ∧ ((1 ≤ n)%nat → (score = 1%float ↔ k = n) ∧ (score = 0%float ↔ k = 0%nat)).
Proof.
  intros Hn Hk.
  assert (score_table_ok 32 = true) as Htable by (vm_compute; reflexivity).
  unfold score_table_ok in Htable.
  rewrite forallb_forall in Htable.
  specialize (Htable n). rewrite forallb_forall in Htable.
  specialize (Htable (ltac:(apply in_seq; lia)) k (ltac:(apply in_seq; lia))).
  cbv zeta in Htable.
  apply andb_prop in Htable as [Htable Hends].
  apply andb_prop in Htable as [Htable Hle1].
  apply andb_prop in Htable as [Hclamp Hle0].
  intros score. split; [by apply FloatAxioms.Leibniz.eqb_spec|].
  split; [done|]. split; [done|]. intros Hpos.
  apply orb_prop in Hends as [Hzero|Hends];
    [apply Nat.eqb_eq in Hzero; lia|].
  apply andb_prop in Hends as [Hone Hzero].
  apply Bool.eqb_prop in Hone, Hzero.
  rewrite <- !FloatAxioms.Leibniz.eqb_spec, <- !Nat.eqb_eq.
  fold score in Hone, Hzero. rewrite Hone, Hzero. done.
Qed.

Lemma clamp_fixes_score (n k : nat) :
  (n ≤ 32)%nat → (k ≤ n)%nat →
  clamp (py_round (int_truediv k n) 3) = py_round (int_truediv k n) 3.
Proof. intros Hn Hk. by destruct (score_table n k Hn Hk) as [? _]. Qed.

Lemma py_or_str (s : string) : py_or (JStr s) (JStr "") = JStr s.
Proof. by destruct s. Qed.

(** The entries of the vocabularies are cleaned skills already. *)
Lemma vocabulary_clean (s : string) :
  s ∈ resume_tools.COMMON_SKILLS ∨ s ∈ match_tools._SKILL_VOCAB →
  clean_skill s.
Proof.
  assert (∀ v : list string,
            map strip v = v → map lower v = v →
            forallb (λ s, negb (String.eqb s "")) v = true →
            ∀ s, s ∈ v → clean_skill s) as Hclean.
  { intros v Hstrip Hlower Hne t Ht. split; [|split].
    - by apply (map_fixed_elem strip v).
    - by apply (map_fixed_elem lower v).
    - rewrite forallb_forall in Hne. apply list_elem_of_In, Hne in Ht.
      by apply negb_true_iff, String.eqb_neq in Ht. }
  intros [Hs|Hs]; revert s Hs; apply Hclean; vm_compute; reflexivity.
Qed.

(** The validator leaves a match result alone when the required skills
    are cleaned skills and there are at most 32 of them. *)
Lemma normalize_match_result `{Runtime}
    (resume_skills job_skills : list string) (explanation : string) :
  Forall clean_skill job_skills →
  NoDup job_skills → (List.length job_skills ≤ 32)%nat →
  let resume_set : gset string := list_to_set resume_skills in
  let job_set : gset string := list_to_set job_skills in
  let overlap := py_sorted (resume_set ∩ job_set) in
  let missing := py_sorted (job_set ∖ resume_set) in
  let result :=
    [ ("score",
       JFloat (py_round
                 (if decide (job_set = ∅) then 0%float
                  else int_truediv (List.length overlap) (size job_set))
                 3));
      ("overlapping_skills", JList (map JStr overlap));
      ("missing_skills", JList (map JStr missing));
      ("explanation", JStr explanation) ] in
  improved_tools.normalize (JDict result) = ok result.
Proof.
  intros Hclean Hnd Hlen resume_set job_set overlap missing result.
  assert (canonical_skills overlap) as Ho.
  { split; [|split; [apply NoDup_py_sorted|apply Sorted_py_sorted]].
    apply Forall_forall. intros s. unfold overlap, resume_set, job_set.
    rewrite elem_of_py_sorted, elem_of_intersection, !elem_of_list_to_set.
    intros [_ Hs]. by apply (proj1 (Forall_forall _ _) Hclean). }
  assert (canonical_skills missing) as Hm.
  { split; [|split; [apply NoDup_py_sorted|apply Sorted_py_sorted]].
    apply Forall_forall. intros s. unfold missing, resume_set, job_set.
    rewrite elem_of_py_sorted, elem_of_difference, !elem_of_list_to_set.
    intros [Hs _]. by apply (proj1 (Forall_forall _ _) Hclean). }
  assert (size job_set = List.length job_skills) as Hsize
    by by apply size_list_to_set.
  assert (List.length overlap ≤ size job_set)%nat as Hk.
  { unfold overlap. rewrite length_py_sorted.
    apply subseteq_size, intersection_subseteq_r. }
  unfold improved_tools.normalize, call_get, result. simpl.
  unfold dict_get. simpl.
  rewrite !py_or_list, (clean_skills_fixed _ Ho), (clean_skills_fixed _ Hm).
  simpl. rewrite py_or_str, coerce_score_clamp. simpl.
  do 4 f_equal.
  destruct (decide (job_set = ∅)); [reflexivity|].
  apply clamp_fixes_score; lia.
Qed.

(** X13. In the pipeline the validator changes nothing: what
    [compute_match] returns for the profiles written by [parse_resume]
    and [parse_job_description] is already in the validator's canonical
    form, so [validate_match_output] re-serialises the same result
    (without indentation). The assumptions are that [json.loads] reads
    back the two profiles and the match result. *)
Theorem validator_keeps_pipeline_match `{Runtime}
    (resume_text job_text : string) :
  json_loads (resume_tools.parse_resume resume_text)
    = ok (JDict (resume_tools.resume_profile resume_text)) →
  json_loads (job_tools.parse_job_description job_text)
    = ok (JDict (job_tools.job_profile job_text)) →
  (∀ result,
     match_tools.match_result (resume_tools.parse_resume resume_text)
       (job_tools.parse_job_description job_text) = ok result →
     json_loads (json_dumps (Some 2) (JDict result)) = ok (JDict result)) →
  ∃ (result : dict) (match_json : string),
    match_tools.compute_match (resume_tools.parse_resume resume_text)
      (job_tools.parse_job_description job_text) = ok match_json
    ∧ match_json = json_dumps (Some 2) (JDict result)
    ∧ improved_tools.normalize (JDict result) = ok result
    ∧ improved_tools.validate_match_output match_json
      = ok (json_dumps None (JDict result)).
Proof.
  intros Hr Hj Hback.
  destruct (match_result_strings (resume_tools.parse_resume resume_text)
              (job_tools.parse_job_description job_text)
              (resume_tools._extract_skills resume_text)
              (job_tools._extract_required_skills job_text))
    as [explanation Hres].
  { by rewrite (proj1 (ensure_profile_mapping _ _ Hr)). }
  { by rewrite (proj2 (ensure_profile_mapping _ _ Hj)). }
  rewrite (lower_extract_skills resume_text),
    (lower_extract_required_skills job_text) in Hres.
  pose proof (normalize_match_result
                (resume_tools._extract_skills resume_text)
                (job_tools._extract_required_skills job_text) explanation)
    as Hfixed.
  cbv zeta in Hfixed.
  eexists _, _. unfold match_tools.compute_match. rewrite Hres. simpl.
  split; [reflexivity|]. split; [reflexivity|].
  match goal with |- ?fixed ∧ _ => assert fixed as Hn end; [apply Hfixed|].
  - apply Forall_forall. intros s [Hs _]%elem_of_extract_required_skills.
    apply vocabulary_clean. by left.
  - apply NoDup_dedup.
  - pose proof (sublist_length _ _
                  (sublist_found_in job_tools.COMMON_SKILLS (lower job_text)))
      as Hlen.
    unfold job_tools._extract_required_skills.
    rewrite dedup_NoDup_id by (apply NoDup_found_in, NoDup_COMMON_SKILLS).
    assert (List.length job_tools.COMMON_SKILLS = 24%nat) as Hvocabulary
      by (vm_compute; reflexivity).
    rewrite Hvocabulary in Hlen. lia.
  - split; [exact Hn|].
    unfold improved_tools.validate_match_output,
      improved_tools.loads_or_empty.
    rewrite (Hback _ Hres). simpl. by rewrite Hn.
Qed.

Lemma validator_keeps_pipeline_match_witness :
  ∃ (result : dict) (match_json : string),
    match_tools.compute_match (resume_tools.parse_resume scenario_resume_text)
      (job_tools.parse_job_description scenario_job_text) = ok match_json
    ∧ match_json = json_dumps (Some 2) (JDict result)
    ∧ improved_tools.normalize (JDict result) = ok result
    ∧ improved_tools.validate_match_output match_json
      = ok (json_dumps None (JDict result)).
Proof.
  apply (validator_keeps_pipeline_match scenario_resume_text
           scenario_job_text).
  - vm_compute. reflexivity.
  - vm_compute. reflexivity.
  - intros result Hres. vm_compute in Hres. injection Hres as <-.
    vm_compute. reflexivity.
Defined.

(** ** The tools after the validator *)

Lemma mapM_as_str (l : list string) : mapM as_str (map JStr l) = ok l.
Proof. induction l as [|s l IH]; [done|]. simpl. by rewrite IH. Qed.

Lemma py_join_strings (sep : string) (l : list string) :
  py_join sep (JList (map JStr l)) = ok (join sep l).
Proof. unfold py_join. simpl. by rewrite mapM_as_str. Qed.

Lemma slice_to_strings (n : nat) (l : list string) :
  slice_to n (JList (map JStr l)) = ok (JList (map JStr (firstn n l))).
Proof. simpl. by rewrite firstn_map. Qed.

Ltac run_tool :=
  repeat (progress
            (simpl;
             unfold improved_tools.join_first, dict_get, py_or, py_join;
             simpl; rewrite ?firstn_map, ?mapM_as_str));
  eexists; reflexivity.

(** X14. After the validator, no tool raises: given the profile that
    [parse_resume] wrote, the one [parse_job_description] wrote and any
    match result in the form [validate_match_output] emits, the three
    generators, [draft_outreach_email] and [log_run] all return a text.
    The assumption is that [json.loads] reads the three documents. *)
Theorem tools_return_on_validated_match `{Runtime}
    (resume_text job_text : string) (data : value) (normalized : dict)
    (resume_json job_json match_json : string) :
  json_loads resume_json = ok (JDict (resume_tools.resume_profile resume_text)) →
  json_loads job_json = ok (JDict (job_tools.job_profile job_text)) →
  improved_tools.normalize data = ok normalized →
  json_loads match_json = ok (JDict normalized) →
  (∃ text, improved_tools.explain_match resume_json job_json match_json
           = ok text)
  ∧ (∃ text, improved_tools.suggest_resume_edits resume_json job_json
               match_json = ok text)
  ∧ (∃ text, improved_tools.generate_targeted_bullets resume_json job_json
             = ok text)
  ∧ (∃ text, outreach_tools.draft_outreach_email resume_json job_json
               match_json = ok text)
  ∧ (∀ (w : world) (email_text : string),
       ∃ status, (improved_tools.log_run w resume_json job_json match_json
                    email_text).1 = ok status).
Proof.
  intros Hr Hj Hn Hm.
  destruct (normalize_inv _ _ Hn) as (d & o & m & _ & _ & _ & ->).
  clear Hn. unfold resume_tools.resume_profile in Hr.
  unfold job_tools.job_profile in Hj.
  revert Hr Hj Hm.
  generalize (resume_tools._extract_name resume_text) as name,
    (resume_tools._extract_skills resume_text) as skills,
    (job_tools._extract_role_title job_text) as role_title,
    (job_tools._extract_location job_text) as location,
    (job_tools._extract_required_skills job_text) as required_skills,
    (improved_tools.coerce_score (dict_get "score" (JFloat 0) d)) as score,
    (py_or (dict_get "explanation" (JStr "") d) (JStr "")) as explanation.
  intros name skills role_title location required_skills score explanation
    Hr Hj Hm.
  split; [|split; [|split; [|split]]].
  - unfold improved_tools.explain_match, improved_tools.loads_or_empty.
    rewrite Hr, Hj, Hm.
    destruct o as [|o1 o], m as [|m1 m]; run_tool.
  - unfold improved_tools.suggest_resume_edits, improved_tools.loads_or_empty.
    rewrite Hr, Hj, Hm.
    destruct o as [|o1 o], m as [|m1 m], required_skills as [|r1 rs]; run_tool.
  - unfold improved_tools.generate_targeted_bullets,
      improved_tools.loads_or_empty.
    rewrite Hr, Hj.
    destruct required_skills as [|r1 [|r2 rs]]; run_tool.
  - unfold outreach_tools.draft_outreach_email.
    rewrite Hr, Hj, Hm.
    destruct o as [|o1 o], m as [|m1 m]; run_tool.
  - intros w email_text. unfold improved_tools.log_run,
      improved_tools.loads_or_empty.
    rewrite Hr, Hj, Hm. simpl. destruct (log_file w); simpl; eexists; reflexivity.
Qed.

Lemma tools_return_on_validated_match_witness :
  let resume_json := resume_tools.parse_resume scenario_resume_text in
  let job_json := job_tools.parse_job_description scenario_job_text in
  let match_json := text_of (JDict example_normalized) in
  (∃ text, improved_tools.explain_match resume_json job_json match_json
           = ok text)
  ∧ (∃ text, improved_tools.suggest_resume_edits resume_json job_json
               match_json = ok text)
  ∧ (∃ text, improved_tools.generate_targeted_bullets resume_json job_json
             = ok text)
  ∧ (∃ text, outreach_tools.draft_outreach_email resume_json job_json
               match_json = ok text)
  ∧ (∀ (w : world) (email_text : string),
       ∃ status, (improved_tools.log_run w resume_json job_json match_json
                    email_text).1 = ok status).
Proof.
  apply (tools_return_on_validated_match scenario_resume_text
           scenario_job_text (JDict example_normalized) example_normalized).
  - vm_compute. reflexivity.
  - vm_compute. reflexivity.
  - vm_compute. reflexivity.
  - vm_compute. reflexivity.
Defined.

(** ** The run log is append-only *)

Lemma substring_prefix (n : nat) (s : string) :
  ∃ rest, s = String.substring 0 n s ++ rest.
Proof.
  revert n. induction s as [|c s IH]; intros [|n]; simpl.
  - by exists "".
  - by exists "".
  - by exists (String c s).
  - destruct (IH n) as [rest Hrest]. exists rest.
    rewrite append_cons. by rewrite <- Hrest.
Qed.

Lemma substring_length_le (n : nat) (s : string) :
  (String.length (String.substring 0 n s) ≤ n)%nat.
Proof.
  revert n. induction s as [|c s IH]; intros [|n]; simpl; try lia.
  specialize (IH n). lia.
Qed.

Lemma run_record_cases `{Runtime} (w : world) (r j m : value)
    (email_text : string) :
  (improved_tools.run_record w r j m email_text = raise AttributeError
   ∧ ¬ ∃ dr dj dm, r = JDict dr ∧ j = JDict dj ∧ m = JDict dm)
  ∨ ∃ record,
      improved_tools.run_record w r j m email_text = ok record
      ∧ map fst record = record_keys
      ∧ dict_lookup "timestamp_utc" record = Some (JStr (utcnow_iso w ++ "Z"))
      ∧ dict_lookup "email_preview" record
        = Some (JStr (String.substring 0 300 email_text)).
Proof.
  unfold improved_tools.run_record, call_get_none, call_get.
  destruct r; simpl;
    try (left; split; [reflexivity|intros (? & ? & ? & ? & ? & ?); congruence]).
  destruct j; simpl;
    try (left; split; [reflexivity|intros (? & ? & ? & ? & ? & ?); congruence]).
  destruct m; simpl;
    try (left; split; [reflexivity|intros (? & ? & ? & ? & ? & ?); congruence]).
  right. eexists. split; [reflexivity|]. by repeat split.
Qed.

(** X15. [log_run] never rewrites the log, whatever its arguments: it
    raises [AttributeError] and leaves the world alone (an argument that
    is JSON and not a mapping), or reports the failure of the append in
    its status and leaves the world alone, or appends exactly one record
    line to the content that was there. The record has the eight fields
    in their order, and its [email_preview] is a prefix of the email of
    at most 300 characters. *)
Theorem log_run_is_append_only `{Runtime} (w : world)
    (resume_json job_json match_json email_text : string) :
  let outcome :=
    improved_tools.log_run w resume_json job_json match_json email_text in
  (outcome.1 = raise AttributeError ∧ outcome.2 = w)
  ∨ (∃ err, log_file w = Unwritable err
            ∧ outcome.1 = ok ("Failed to log run: " ++ err)
            ∧ outcome.2 = w)
  ∨ (∃ content record preview rest,
       log_file w = Appendable content
       ∧ outcome.1 = ok "Run logged to runs_log.jsonl."
       ∧ utcnow_iso outcome.2 = utcnow_iso w
       ∧ log_file outcome.2
         = Appendable (content ++ json_dumps None (JDict record) ++ nl)
       ∧ map fst record = record_keys
       ∧ dict_lookup "email_preview" record = Some (JStr preview)
       ∧ email_text = preview ++ rest
       ∧ (String.length preview ≤ 300)%nat).
Proof.
  intros outcome. unfold outcome, improved_tools.log_run.
  destruct (run_record_cases w (improved_tools.loads_or_empty resume_json)
              (improved_tools.loads_or_empty job_json)
              (improved_tools.loads_or_empty match_json) email_text)
    as [[-> _]|(record & -> & Hkeys & _ & Hpreview)].
  { by left. }
  right. destruct (log_file w) as [content|err] eqn:Hfile; simpl.
  - right. destruct (substring_prefix 300 email_text) as [rest Hrest].
    exists content, record, (String.substring 0 300 email_text), rest.
    repeat split; try done. apply substring_length_le.
  - left. by exists err.
Qed.


(** ** The ends of the score scale *)

Lemma size_list_to_set_le (l : list string) :
  (size (list_to_set l : gset string) ≤ List.length l)%nat.
Proof.
  induction l as [|x l IH]; [by rewrite list_to_set_nil, size_empty|].
  rewrite list_to_set_cons, size_union_alt, size_singleton. simpl.
  assert (list_to_set l ∖ {[x]} ⊆ (list_to_set l : gset string)) as Hsub
    by apply subseteq_difference_l, reflexivity.
  apply subseteq_size in Hsub. lia.
Qed.

Lemma py_sorted_nil_iff (X : gset string) : py_sorted X = [] ↔ size X = 0%nat.
Proof.
  rewrite <- length_py_sorted. by destruct (py_sorted X).
Qed.

(** X16. With at most 32 required skills (every vocabulary of the tools
    is shorter), the score of [compute_match] lies between 0 and 1, it is
    1.0 exactly when the job requires something and nothing is missing,
    and 0.0 exactly when there is no overlapping skill: rounding to three
    decimals never turns a partial match into a perfect or an empty
    one. *)
Theorem score_extremes `{Runtime} (resume_json job_json : string)
    (resume_skills job_skills : list string) :
  dict_get "skills" (JList []) (match_tools._ensure_resume_profile resume_json)
    = JList (map JStr resume_skills) →
  dict_get "required_skills" (JList [])
      (match_tools._ensure_job_profile job_json)
    = JList (map JStr job_skills) →
  (List.length job_skills ≤ 32)%nat →
  ∃ (result : dict) (score : float) (overlap missing : list string),
    match_tools.compute_match resume_json job_json
      = ok (json_dumps (Some 2) (JDict result))
    ∧ dict_lookup "score" result = Some (JFloat score)
    ∧ dict_lookup "overlapping_skills" result = Some (JList (map JStr overlap))
    ∧ dict_lookup "missing_skills" result = Some (JList (map JStr missing))
    ∧ PrimFloat.leb 0 score = true ∧ PrimFloat.leb score 1 = true
    ∧ (score = 1%float ↔ job_skills ≠ [] ∧ missing = [])
    ∧ (score = 0%float ↔ overlap = []).
Proof.
  intros Hr Hj Hlen.
  destruct (match_result_strings resume_json job_json resume_skills job_skills
              Hr Hj) as [explanation Hres].
  cbv zeta in Hres. revert Hres.
  set (resume_set := list_to_set (map lower resume_skills) : gset string).
  set (job_set := list_to_set (map lower job_skills) : gset string).
  intros Hres.
  eexists _, _, _, _. unfold match_tools.compute_match. rewrite Hres. simpl.
  do 4 (split; [reflexivity|]).
  rewrite !py_sorted_nil_iff, length_py_sorted.
  assert (size job_set ≤ 32)%nat as Hn.
  { pose proof (size_list_to_set_le (map lower job_skills)) as Hle.
    rewrite length_map in Hle. unfold job_set. lia. }
  assert (size (resume_set ∩ job_set) ≤ size job_set)%nat as Hk
    by apply subseteq_size, intersection_subseteq_r.
  assert (size (job_set ∖ resume_set)
          = (size job_set - size (resume_set ∩ job_set))%nat) as Hmissing.
  { rewrite size_difference_alt. do 2 f_equal. apply (comm_L (∩)). }
  assert (job_skills ≠ [] ↔ size job_set ≠ 0%nat) as Hne.
  { rewrite size_non_empty_iff. unfold job_set.
    destruct job_skills; [|set_solver].
    split; [done|]. intros Hs. by destruct Hs. }
  destruct (decide (job_set = ∅)) as [Hempty|Hfull].
  - rewrite py_round_zero. rewrite Hempty in Hk, Hne |- *.
    assert (size (resume_set ∩ ∅) = 0%nat) as -> by (rewrite size_empty in Hk; lia).
    rewrite size_empty in Hne.
    split; [reflexivity|]. split; [reflexivity|].
    split; [|done]. split; [|tauto].
    intros Hone. exfalso.
    by apply FloatAxioms.Leibniz.eqb_spec in Hone.
  - destruct (score_table _ _ Hn Hk) as (_ & Hle0 & Hle1 & Hends).
    assert (size job_set ≠ 0%nat) as Hpos.
    { intros Hz. apply Hfull. by apply leibniz_equiv, size_empty_iff. }
    destruct (Hends ltac:(lia)) as [Hone Hzero].
    split; [exact Hle0|]. split; [exact Hle1|].
    rewrite Hone, Hzero, Hmissing. split; [|done].
    split; [intros Heq; split; [tauto|lia]|intros [_ Heq]; lia].
Qed.

Lemma score_extremes_witness :
  ∃ (result : dict) (score : float) (overlap missing : list string),
    match_tools.compute_match example_resume example_job
      = ok (json_dumps (Some 2) (JDict result))
    ∧ dict_lookup "score" result = Some (JFloat score)
    ∧ dict_lookup "overlapping_skills" result = Some (JList (map JStr overlap))
    ∧ dict_lookup "missing_skills" result = Some (JList (map JStr missing))
    ∧ PrimFloat.leb 0 score = true ∧ PrimFloat.leb score 1 = true
    ∧ (score = 1%float ↔ ["python"; "react"; "sql"] ≠ [] ∧ missing = [])
    ∧ (score = 0%float ↔ overlap = []).
Proof.
  apply (score_extremes example_resume example_job ["Python"; "SQL"]
           ["python"; "react"; "sql"]).
  - vm_compute. reflexivity.
  - vm_compute. reflexivity.
  - simpl. lia.
Defined.

(** ** Malformed arguments *)

Lemma improved_generators_degrade_witness :
  (∃ text, improved_tools.explain_match "not json" "{" "[1," = ok text)
  ∧ (∃ text, improved_tools.suggest_resume_edits "not json" "{" "[1,"
             = ok text)
  ∧ (∃ text, improved_tools.generate_targeted_bullets "not json" "{"
             = ok text).
Proof.
  apply (improved_generators_degrade "not json" "{" "[1," JSONDecodeError
           JSONDecodeError JSONDecodeError).
  - vm_compute. reflexivity.
  - vm_compute. reflexivity.
  - vm_compute. reflexivity.
Defined.
